(** * FinGPT TradingView webhook: a shallow embedding of [app.py]

    The module under study is one Flask application.  A TradingView alert
    arrives on [POST /webhook]; the handler authenticates it with a shared
    token, scores the alert's note with FinBERT, applies a sentiment gate
    and a confidence gate, and on success starts a deal on a 3Commas bot.

    Python values are modelled by [pyval] (the image of [json.loads]),
    Python floats by IEEE binary64 values ([spec_float] at precision 53),
    dictionaries by [gmap string pyval], and effects (calls of the
    classifier, [print], [requests.post]) by a trace of events next to an
    outcome that is either a returned value or a raised exception.

    What the application does not define is gathered in [Env]: its
    configuration, the classifier, the HTTP client, and the built-ins
    [repr], [str.upper], [float], [int] on strings and HMAC-SHA256.

    Layout: the built-ins of Python that are modelled in full; the three
    functions [sentiment_score], [start_deal] and [webhook]; the steps of
    the latter two by name; test doubles; then the lemmas and the
    properties C1 to C10, with their instances on concrete alerts. *)

From Stdlib Require Import ZArith String Ascii List Lia.
From Stdlib Require Import Floats.SpecFloat.
From stdpp Require Import base gmap strings list pretty.

Set Warnings "-register-all".
Local Open Scope Z_scope.

(* ===================================================================== *)
(** ** Python strings *)
(* ===================================================================== *)

(** A Python [str] is modelled by a Rocq [string]; one [ascii] stands for
    one code point below 256.  The methods below stay within these code
    points; [upper], which does not, is among the collaborators of [Env]. *)
Module PyStr.

Definition code (c : ascii) : N := N_of_ascii c.

(** [str.isspace] on one code point below 256. *)
Definition isspace (c : ascii) : bool :=
  let n := code c in
  ((9 <=? n) && (n <=? 13))%N || ((28 <=? n) && (n <=? 32))%N
  || (n =? 133)%N || (n =? 160)%N.

Definition is_empty (s : string) : bool :=
  match s with EmptyString => true | String _ _ => false end.

Fixpoint lstrip (s : string) : string :=
  match s with
  | EmptyString => EmptyString
  | String c s' => if isspace c then lstrip s' else s
  end.

Fixpoint rstrip (s : string) : string :=
  match s with
  | EmptyString => EmptyString
  | String c s' =>
      let r := rstrip s' in
      if isspace c && is_empty r then EmptyString else String c r
  end.

(** [s.strip()] *)
Definition strip (s : string) : string := rstrip (lstrip s).

Definition lower_char (c : ascii) : ascii :=
  let n := code c in
  if ((65 <=? n) && (n <=? 90))%N
     || ((192 <=? n) && (n <=? 222) && negb (n =? 215))%N
  then ascii_of_N (n + 32) else c.

(** [s.lower()] *)
Fixpoint lower (s : string) : string :=
  match s with
  | EmptyString => EmptyString
  | String c s' => String (lower_char c) (lower s')
  end.

(** [s[:n]] *)
Fixpoint slice_to (n : nat) (s : string) : string :=
  match n, s with
  | O, _ => EmptyString
  | S _, EmptyString => EmptyString
  | S n', String c s' => String c (slice_to n' s')
  end.

(** [sub in s] *)
Fixpoint contains (sub s : string) : bool :=
  String.prefix sub s
  || match s with
     | EmptyString => false
     | String _ s' => contains sub s'
     end.

End PyStr.

(* ===================================================================== *)
(** ** Python floats *)
(* ===================================================================== *)

Module PyFloat.

(** IEEE 754 binary64. *)
Definition prec : Z := 53.
Definition emax : Z := 1024.

Abbreviation float := spec_float.

Definition is_binary64 (f : float) : bool := valid_binary prec emax f.

(** The value of an integer literal used where a float is expected;
    [None] when the integer is out of the range of a float. *)
Definition of_Z (z : Z) : option float :=
  match binary_normalize prec emax z 0 false with
  | S754_infinity _ => None
  | f => Some f
  end.

Definition zero : float := S754_zero false.
Definition one : float := Eval vm_compute in binary_normalize prec emax 1 0 false.
Definition sixty : float := Eval vm_compute in binary_normalize prec emax 60 0 false.
(** The literal [0.2]: the binary64 value nearest to 1/5,
    [0x1.999999999999ap-3]. *)
Definition two_tenths : float :=
  Eval vm_compute in
    SFdiv prec emax (binary_normalize prec emax 1 0 false)
                    (binary_normalize prec emax 5 0 false).

Definition neg (f : float) : float := SFopp f.
Definition ltb (a b : float) : bool := SFltb a b.
Definition gtb (a b : float) : bool := SFltb b a.
Definition leb (a b : float) : bool := SFleb a b.
Definition geb (a b : float) : bool := SFleb b a.

(** [bool(f)]: every float but the two zeros is true. *)
Definition truthy (f : float) : bool :=
  match f with S754_zero _ => false | _ => true end.

(** The integer nearest to [m * 2^e], ties to the even one. *)
Definition round_half_even (m e : Z) : Z :=
  if 0 <=? e then m * 2 ^ e
  else
    let d := 2 ^ (- e) in
    let q := m / d in
    let r := m mod d in
    if 2 * r <? d then q
    else if d <? 2 * r then q + 1
    else if Z.even q then q else q + 1.

Definition two_digits (n : Z) : string :=
  (if n <? 10 then "0" else "") +:+ pretty n.

Definition sign_str (s : bool) : string := if s then "-" else "".

(** [format(f, ".2f")] *)
Definition format_2f (f : float) : string :=
  match f with
  | S754_nan => "nan"
  | S754_infinity s => sign_str s +:+ "inf"
  | S754_zero s => sign_str s +:+ "0.00"
  | S754_finite s m e =>
      let n := round_half_even (100 * Z.pos m) e in
      sign_str s +:+ pretty (n / 100) +:+ "." +:+ two_digits (n mod 100)
  end.

End PyFloat.
Import PyFloat.

(* ===================================================================== *)
(** ** Python values, exceptions, effects *)
(* ===================================================================== *)

(** What [json.loads] produces, and what [jsonify] and [requests] accept. *)
Inductive pyval : Type :=
  | PNone
  | PBool (b : bool)
  | PInt (z : Z)
  | PFloat (f : float)
  | PStr (s : string)
  | PList (l : list pyval)
  | PDict (d : gmap string pyval).

Inductive exn : Type :=
  | AttributeError
  | TypeError
  | ValueError
  | OverflowError
  | ExternalError (what : string).

Inductive outcome (A : Type) : Type :=
  | Return (a : A)
  | Raise (e : exn).
Arguments Return {A} a.
Arguments Raise {A} e.

(** Exceptions propagate: the first [Raise] ends the sequence. *)
#[export] Instance outcome_ret : MRet outcome := @Return.
#[export] Instance outcome_bind : MBind outcome := fun A B k o =>
  match o with
  | Return a => k a
  | Raise e => Raise e
  end.

Record http_request : Type := mk_http_request {
  rq_url : string;
  rq_headers : gmap string string;
  rq_params : gmap string string;
  rq_json : pyval;
  rq_timeout : Z
}.

(** A [requests.Response]: [rs_json = None] stands for [r.json()] raising. *)
Record http_response : Type := mk_http_response {
  rs_status_code : Z;
  rs_text : string;
  rs_json : option pyval
}.

(** What the process does to the outside, in order. *)
Inductive event : Type :=
  | EClassify (input : string)
  | EPrint (line : string)
  | EPost (rq : http_request).

(** A computation: the events it performed and how it ended. *)
Definition M (A : Type) : Type := list event * outcome A.

Definition ret {A} (a : A) : M A := ([], Return a).
Definition raise {A} (e : exn) : M A := ([], Raise e).
Definition emit (ev : event) : M unit := ([ev], Return tt).
Definition lift {A} (o : outcome A) : M A := ([], o).

Definition bind {A B} (m : M A) (k : A -> M B) : M B :=
  match m with
  | (t, Return a) => let '(t', r) := k a in (t ++ t', r)
  | (t, Raise e) => (t, Raise e)
  end.

(** The monad structure, through stdpp's classes: [x ← m; k] runs [m]
    then [k], concatenating the traces; a raised exception ends the run. *)
#[export] Instance M_ret : MRet M := @ret.
#[export] Instance M_bind : MBind M := fun A B k m => bind m k.

Definition trace {A} (m : M A) : list event := fst m.
Definition result {A} (m : M A) : outcome A := snd m.

Definition is_post (ev : event) : bool :=
  match ev with EPost _ => true | _ => false end.

(** No call of [requests.post] in the trace. *)
Definition no_network {A} (m : M A) : Prop :=
  forallb (fun ev => negb (is_post ev)) (trace m) = true.

(* ===================================================================== *)
(** ** Python built-ins on values *)
(* ===================================================================== *)

(** [bool(v)] *)
Definition truthy (v : pyval) : bool :=
  match v with
  | PNone => false
  | PBool b => b
  | PInt z => negb (z =? 0)
  | PFloat f => PyFloat.truthy f
  | PStr s => negb (PyStr.is_empty s)
  | PList l => match l with [] => false | _ => true end
  | PDict d => negb (Nat.eqb (size d) 0)
  end.

(** [v.get(key, default)]: only a dict has the method. *)
Definition py_get (v : pyval) (key : string) (default : pyval) : outcome pyval :=
  match v with
  | PDict d => Return (match d !! key with Some x => x | None => default end)
  | _ => Raise AttributeError
  end.

(** [v.lower()], [v.strip()]: only a str has the methods. *)
Definition py_lower (v : pyval) : outcome string :=
  match v with PStr s => Return (PyStr.lower s) | _ => Raise AttributeError end.
Definition py_strip (v : pyval) : outcome string :=
  match v with PStr s => Return (PyStr.strip s) | _ => Raise AttributeError end.

(** [v != s] for a str [s]: a value of another type is never equal. *)
Definition py_ne_str (v : pyval) (s : string) : bool :=
  match v with PStr t => negb (String.eqb t s) | _ => true end.

Definition is_str (s : string) (v : pyval) : bool :=
  match v with PStr t => String.eqb t s | _ => false end.

(** [s in v] for a str [s]: substring of a str, element of a list, key of
    a dict; the other types are not iterable. *)
Definition py_in (s : string) (v : pyval) : outcome bool :=
  match v with
  | PStr t => Return (PyStr.contains s t)
  | PList l => Return (existsb (is_str s) l)
  | PDict d => Return (match d !! s with Some _ => true | None => false end)
  | _ => Raise TypeError
  end.

(** [v[:n]] of a str. *)
Definition py_slice_to (n : nat) (v : pyval) : outcome string :=
  match v with PStr s => Return (PyStr.slice_to n s) | _ => Raise TypeError end.

(* ===================================================================== *)
(** ** Configuration (lines 9-14) *)
(* ===================================================================== *)

Record Config : Type := mk_Config {
  TV_WEBHOOK_TOKEN : string;
  API_KEY : string;
  API_SECRET : string;
  BOT_ID : string;
  DRY_RUN : bool
}.

(** [os.getenv(name, default)] *)
Definition getenv (env : gmap string string) (name default : string) : string :=
  match env !! name with Some v => v | None => default end.

Definition load_config (env : gmap string string) : Config :=
  {| TV_WEBHOOK_TOKEN := getenv env "TV_WEBHOOK_TOKEN" "";
     API_KEY := getenv env "THREECOMMAS_API_KEY" "";
     API_SECRET := getenv env "THREECOMMAS_API_SECRET" "";
     BOT_ID := getenv env "THREECOMMAS_BOT_ID" "";
     DRY_RUN := String.eqb (PyStr.lower (getenv env "DRY_RUN" "false")) "true" |}.

(** The result of the FinBERT pipeline on one text: [res["label"]] and
    [res["score"]]. *)
Record clf_result : Type := mk_clf_result {
  label : string;
  score : float
}.

(** A Flask response: the value given to [jsonify] and the status. *)
Record Response : Type := mk_Response {
  body : pyval;
  status : Z
}.

(** The Flask [request]: [get_json = None] stands for
    [request.get_json(force=True)] raising. *)
Record Request : Type := mk_Request {
  get_json : option pyval
}.

Definition jsonify (d : gmap string pyval) : pyval := PDict d.

(* ===================================================================== *)
(** ** The decision gates (lines 104-118 of [webhook]) *)
(* ===================================================================== *)

(** Lines 104-113: alignment of [side] and the sentiment [s]. *)
Definition sentiment_gate (side : string) (s : float) : bool * string :=
  if String.eqb side "buy" && PyFloat.gtb s two_tenths then
    (true, "BUY allowed (sentiment " +:+ format_2f s +:+ ")")
  else if String.eqb side "sell" && PyFloat.ltb s (PyFloat.neg two_tenths) then
    (true, "SELL allowed (sentiment " +:+ format_2f s +:+ ")")
  else
    (false, "Blocked by sentiment " +:+ format_2f s).

(** Gate 1 holds for [side] and [s]: the words of the comment on lines
    102-103, "buy if s>0.2, sell if s<-0.2". *)
Definition aligned (side : string) (s : float) : Prop :=
  (side = "buy" /\ PyFloat.gtb s two_tenths = true) \/
  (side = "sell" /\ PyFloat.ltb s (PyFloat.neg two_tenths) = true).

(* ===================================================================== *)
(** ** The collaborators of the process *)
(* ===================================================================== *)

(** What the application is given and does not define: its configuration,
    the FinBERT pipeline, the HTTP client, and the built-ins of Python that
    are taken as they are. *)
Record Env : Type := mk_Env {
  (** The process-wide configuration, read once at start. *)
  cfg : Config;
  (** The FinBERT pipeline [sent_clf]: what it answers on one text, or the
      exception it raises. *)
  sent_clf : string -> outcome clf_result;
  (** [requests.post]: the response of the trading API, or the transport
      exception. *)
  http_post : http_request -> outcome http_response;
  (** [hmac.new(key, msg, hashlib.sha256).hexdigest()] *)
  hmac_sha256_hex : string -> string -> string;
  (** [repr(v)]; [str(v)] is the same but on a str. *)
  py_repr : pyval -> string;
  (** [s.upper()].  Python's upper-casing does not stay within the code
      points below 256 (U+00B5 and U+00FF have their upper-case forms
      above), so it is not spelled out here. *)
  str_upper : string -> string;
  (** [float(s)] and [int(s)] on a str; [None] stands for [ValueError]. *)
  float_of_str : string -> option float;
  int_of_str : string -> option Z
}.

(* ===================================================================== *)
(** ** The application *)
(* ===================================================================== *)

Section App.

Variable E : Env.

Definition py_str (v : pyval) : string :=
  match v with PStr s => s | _ => py_repr E v end.

(** [v.upper()]: only a str has the method. *)
Definition py_upper (v : pyval) : outcome string :=
  match v with PStr s => Return (str_upper E s) | _ => Raise AttributeError end.

(** [float(v)] *)
Definition py_float (v : pyval) : outcome float :=
  match v with
  | PFloat f => Return f
  | PInt z =>
      match PyFloat.of_Z z with
      | Some f => Return f
      | None => Raise OverflowError
      end
  | PBool b => Return (if b then PyFloat.one else PyFloat.zero)
  | PStr s =>
      match float_of_str E s with
      | Some f => Return f
      | None => Raise ValueError
      end
  | _ => Raise TypeError
  end.

(** [int(s)] of a str. *)
Definition py_int (s : string) : outcome Z :=
  match int_of_str E s with
  | Some n => Return n
  | None => Raise ValueError
  end.

Definition print (line : string) : M unit := emit (EPrint line).

(** *** [sentiment_score] (lines 22-35) *)

Definition call_sent_clf (input : string) : M clf_result :=
  emit (EClassify input) ;; lift (sent_clf E input).

Definition sentiment_score (text : pyval) : M float :=
  if negb (truthy text) then mret PyFloat.zero
  else
    stripped ← lift (py_strip text);
    if PyStr.is_empty stripped then mret PyFloat.zero
    else
      head ← lift (py_slice_to 500 text);
      res ← call_sent_clf head;
      let label := PyStr.lower (label res) in
      let score := score res in
      if PyStr.contains "positive" label then mret score
      else if PyStr.contains "negative" label then mret (PyFloat.neg score)
      else mret PyFloat.zero.

(** *** 3Commas helpers (lines 37-78) *)

Definition BASE_URL : string := "https://api.3commas.io/public/api".

Definition _sign (query : string) : string :=
  hmac_sha256_hex E (API_SECRET (cfg E)) query.

Definition _headers : gmap string string :=
  {[ "APIKEY" := API_KEY (cfg E);
     "Signature" := "";
     "Content-Type" := "application/json" ]}.

Definition start_deal (bot_id : string) (pair : pyval) (message : string)
  : M pyval :=
  let endpoint := "/ver1/bots/start_deal" in
  let query := "" in
  let url := BASE_URL +:+ endpoint in
  let headers := <["Signature" := _sign query]> _headers in
  n ← lift (py_int bot_id);
  let payload : gmap string pyval :=
    {[ "bot_id" := PInt n;
       "pair" := pair;
       "message" := PStr (PyStr.slice_to 240 message) ]} in
  if DRY_RUN (cfg E) then
    print ("[DRY_RUN] Would call 3Commas start_deal: " +:+ py_repr E (PDict payload)) ;;
    mret (PDict {[ "status" := PStr "dry_run" ]})
  else
    let rq := {| rq_url := url; rq_headers := headers; rq_params := ∅;
                 rq_json := PDict payload; rq_timeout := 20 |} in
    r ← (emit (EPost rq) ;; lift (http_post E rq));
    let data :=
      match rs_json r with
      | Some v => v
      | None => PDict {[ "status_code" := PInt (rs_status_code r);
                         "text" := PStr (rs_text r) ]}
      end in
    print ("3Commas response: " +:+ py_str data) ;;
    mret data.

(** *** [webhook] (lines 80-130) *)

(** Lines 116-118: the optional gate on the TradingView confidence. *)
Definition confidence_gate (confidence : float) (d : bool * string)
  : bool * string :=
  if PyFloat.truthy confidence && PyFloat.ltb confidence PyFloat.sixty then
    (false, d.2 +:+ " | low TV confidence " +:+ py_repr E (PFloat confidence) +:+ "%")
  else d.

Definition webhook (request : Request) : M Response :=
  match get_json request with
  | None =>
      mret {| body := jsonify {[ "ok" := PBool false; "error" := PStr "invalid JSON" ]};
              status := 400 |}
  | Some data =>
      token ← lift (py_get data "token" (PStr ""));
      if negb (PyStr.is_empty (TV_WEBHOOK_TOKEN (cfg E)))
         && py_ne_str token (TV_WEBHOOK_TOKEN (cfg E)) then
        mret {| body := jsonify {[ "ok" := PBool false; "error" := PStr "bad token" ]};
                status := 401 |}
      else
        symbol ← lift (py_get data "symbol" PNone);
        exchange ← lift (x ← py_get data "exchange" (PStr "BINANCE"); py_upper x);
        side ← lift (x ← py_get data "side" (PStr ""); py_lower x);
        note ← lift (py_get data "note" (PStr ""));
        confidence ← lift (x ← py_get data "confidence" (PInt 0); py_float x);
        has_colon ← lift (py_in ":" symbol);
        let pair :=
          if negb has_colon then PStr (exchange +:+ ":" +:+ py_str symbol)
          else symbol in
        s ← sentiment_score note;
        let '(should_trade, reason) :=
          confidence_gate confidence (sentiment_gate side s) in
        print ("[TV] pair=" +:+ py_str pair +:+ " side=" +:+ side
               +:+ " sentiment=" +:+ format_2f s
               +:+ " conf=" +:+ py_repr E (PFloat confidence)
               +:+ " note=" +:+ py_repr E note +:+ " -> " +:+ reason) ;;
        if negb should_trade then
          mret {| body := jsonify {[ "ok" := PBool true;
                                     "action" := PStr "skipped";
                                     "reason" := PStr reason ]};
                  status := 200 |}
        else if negb (negb (PyStr.is_empty (API_KEY (cfg E)))
                      && negb (PyStr.is_empty (API_SECRET (cfg E)))
                      && negb (PyStr.is_empty (BOT_ID (cfg E)))) then
          mret {| body := jsonify {[ "ok" := PBool false;
                                     "error" := PStr "3Commas API not configured (API key/secret/bot id)" ]};
                  status := 500 |}
        else
          resp ← start_deal (BOT_ID (cfg E)) pair
                   ("TV+FinBERT: " +:+ side +:+ " (" +:+ reason +:+ ")");
          mret {| body := jsonify {[ "ok" := PBool true;
                                     "action" := PStr "deal_started";
                                     "threecommas" := resp ]};
                  status := 200 |}
  end.

End App.

(* ===================================================================== *)
(** ** The steps of the dispatcher and of the handler, by name *)
(* ===================================================================== *)

(** The parts of [start_deal] and [webhook] that the properties speak of:
    each is the expression of the lines it cites, and [webhook_authorized]
    and [start_deal_run] below prove that the two functions are made of
    them. *)
Section Steps.

Variable E : Env.

(** Lines 73-76: the parsed body, or the raw status code and text. *)
Definition response_data (r : http_response) : pyval :=
  match rs_json r with
  | Some v => v
  | None => PDict {[ "status_code" := PInt (rs_status_code r);
                     "text" := PStr (rs_text r) ]}
  end.

(** Lines 55-66 and 72: the request that [start_deal] posts. *)
Definition deal_request (n : Z) (pair : pyval) (message : string) : http_request :=
  {| rq_url := "https://api.3commas.io/public/api/ver1/bots/start_deal";
     rq_headers := {[ "APIKEY" := API_KEY (cfg E);
                      "Signature" := hmac_sha256_hex E (API_SECRET (cfg E)) "";
                      "Content-Type" := "application/json" ]};
     rq_params := ∅;
     rq_json := PDict {[ "bot_id" := PInt n; "pair" := pair;
                         "message" := PStr (PyStr.slice_to 240 message) ]};
     rq_timeout := 20 |}.

Definition dry_run_marker : pyval := PDict {[ "status" := PStr "dry_run" ]}.

(** What lines 93-98 take from the payload. *)
Record alert : Type := mk_alert {
  a_symbol : pyval;
  a_exchange : string;
  a_side : string;
  a_note : pyval;
  a_confidence : float;
  a_has_colon : bool
}.

(** Lines 93-98, up to the test [":" not in symbol]. *)
Definition extract (d : gmap string pyval) : outcome alert :=
  symbol ← py_get (PDict d) "symbol" PNone;
  exchange ← (x ← py_get (PDict d) "exchange" (PStr "BINANCE"); py_upper E x);
  side ← (x ← py_get (PDict d) "side" (PStr ""); py_lower x);
  note ← py_get (PDict d) "note" (PStr "");
  confidence ← (x ← py_get (PDict d) "confidence" (PInt 0); py_float E x);
  has_colon ← py_in ":" symbol;
  mret {| a_symbol := symbol; a_exchange := exchange; a_side := side;
          a_note := note; a_confidence := confidence; a_has_colon := has_colon |}.

(** Lines 88-89: the request passes the token check. *)
Definition authorized (d : gmap string pyval) : bool :=
  negb (negb (PyStr.is_empty (TV_WEBHOOK_TOKEN (cfg E)))
        && py_ne_str (match d !! "token" with Some x => x | None => PStr "" end)
                     (TV_WEBHOOK_TOKEN (cfg E))).

(** Line 98. *)
Definition pair_of (a : alert) : pyval :=
  if negb (a_has_colon a)
  then PStr (a_exchange a +:+ ":" +:+ py_str E (a_symbol a))
  else a_symbol a.

(** Lines 104-118. *)
Definition decision (a : alert) (s : float) : bool * string :=
  confidence_gate E (a_confidence a) (sentiment_gate (a_side a) s).

(** Line 120. *)
Definition log_line (a : alert) (s : float) : event :=
  EPrint ("[TV] pair=" +:+ py_str E (pair_of a) +:+ " side=" +:+ a_side a
          +:+ " sentiment=" +:+ format_2f s
          +:+ " conf=" +:+ py_repr E (PFloat (a_confidence a))
          +:+ " note=" +:+ py_repr E (a_note a) +:+ " -> " +:+ snd (decision a s)).

(** Line 126. *)
Definition configured : bool :=
  negb (PyStr.is_empty (API_KEY (cfg E))) && negb (PyStr.is_empty (API_SECRET (cfg E)))
  && negb (PyStr.is_empty (BOT_ID (cfg E))).

(** Line 129. *)
Definition deal_message (a : alert) (s : float) : string :=
  "TV+FinBERT: " +:+ a_side a +:+ " (" +:+ snd (decision a s) +:+ ")".

Definition invalid_json_response : Response :=
  {| body := jsonify {[ "ok" := PBool false; "error" := PStr "invalid JSON" ]};
     status := 400 |}.
Definition bad_token_response : Response :=
  {| body := jsonify {[ "ok" := PBool false; "error" := PStr "bad token" ]};
     status := 401 |}.
Definition skipped_response (reason : string) : Response :=
  {| body := jsonify {[ "ok" := PBool true; "action" := PStr "skipped";
                        "reason" := PStr reason ]};
     status := 200 |}.
Definition not_configured_response : Response :=
  {| body := jsonify {[ "ok" := PBool false;
                        "error" := PStr "3Commas API not configured (API key/secret/bot id)" ]};
     status := 500 |}.
Definition deal_started_response (resp : pyval) : Response :=
  {| body := jsonify {[ "ok" := PBool true; "action" := PStr "deal_started";
                        "threecommas" := resp ]};
     status := 200 |}.

(** The rest of the handler once the payload is taken apart: the score,
    the gates, the log line and the branch of lines 122-130. *)
Definition after_extract (a : alert) : M Response :=
  match sentiment_score E (a_note a) with
  | (tr, Raise e) => (tr, Raise e)
  | (tr, Return s) =>
      if negb (fst (decision a s)) then
        (tr ++ [log_line a s], Return (skipped_response (snd (decision a s))))
      else if negb configured then
        (tr ++ [log_line a s], Return not_configured_response)
      else
        let sd := start_deal E (BOT_ID (cfg E)) (pair_of a) (deal_message a s) in
        (tr ++ log_line a s :: trace sd,
         resp ← result sd; mret (deal_started_response resp))
  end.

End Steps.

(** The closed interval [-1.0, 1.0]. *)
Definition in_unit_interval (f : float) : bool :=
  PyFloat.leb (PyFloat.neg PyFloat.one) f && PyFloat.leb f PyFloat.one.

(** Every character is white space (so is the empty string). *)
Fixpoint all_space (s : string) : bool :=
  match s with
  | EmptyString => true
  | String c s' => PyStr.isspace c && all_space s'
  end.

(** The answer of [sentiment_score] on a classifier result (lines 29-35). *)
Definition signed_score (r : clf_result) : float :=
  let l := PyStr.lower (label r) in
  if PyStr.contains "positive" l then score r
  else if PyStr.contains "negative" l then PyFloat.neg (score r)
  else PyFloat.zero.

(* ===================================================================== *)
(** ** Test doubles for the external collaborators *)
(* ===================================================================== *)

Module Doubles.

(** A classifier that answers the same label and score on every text. *)
Definition clf_const (l : string) (sc : float) : string -> outcome clf_result :=
  fun _ => Return {| label := l; score := sc |}.

(** A trading API that answers the same response to every request. *)
Definition post_const (r : http_response) : http_request -> outcome http_response :=
  fun _ => Return r.

(** [upper] on the ASCII letters; the other characters are left as they
    are.  It is [str.upper] on the ASCII strings. *)
Fixpoint upper_ascii (s : string) : string :=
  match s with
  | EmptyString => EmptyString
  | String c s' =>
      let n := PyStr.code c in
      String (if ((97 <=? n) && (n <=? 122))%N then ascii_of_N (n - 32) else c)
             (upper_ascii s')
  end.

Definition hmac_opaque : string -> string -> string := fun _ _ => "<hmac>".
Definition repr_opaque : pyval -> string := fun _ => "<repr>".

Definition digit (c : ascii) : option Z :=
  let n := PyStr.code c in
  if ((48 <=? n) && (n <=? 57))%N then Some (Z.of_N n - 48) else None.

Fixpoint digits (acc : Z) (s : string) : option Z :=
  match s with
  | EmptyString => Some acc
  | String c s' =>
      match digit c with
      | Some k => digits (10 * acc + k) s'
      | None => None
      end
  end.

(** [int] and [float] on the strings of decimal digits only; every other
    string is refused. *)
Definition int_of_digits (s : string) : option Z :=
  if PyStr.is_empty s then None else digits 0 s.
Definition float_of_digits (s : string) : option float :=
  z ← int_of_digits s; PyFloat.of_Z z.

(** [" " * n] *)
Fixpoint spaces (n : nat) : string :=
  match n with
  | O => EmptyString
  | S n' => String " " (spaces n')
  end.

Definition cfg_live : Config :=
  {| TV_WEBHOOK_TOKEN := "secret123"; API_KEY := "key"; API_SECRET := "shh";
     BOT_ID := "12345"; DRY_RUN := false |}.
Definition cfg_dry : Config :=
  {| TV_WEBHOOK_TOKEN := "secret123"; API_KEY := "key"; API_SECRET := "shh";
     BOT_ID := "12345"; DRY_RUN := true |}.
Definition cfg_open : Config :=
  {| TV_WEBHOOK_TOKEN := ""; API_KEY := "key"; API_SECRET := "shh";
     BOT_ID := "12345"; DRY_RUN := true |}.

(** A trading API that is down: status 500 and a body that is no JSON. *)
Definition api_down : http_response :=
  {| rs_status_code := 500; rs_text := "Internal Server Error"; rs_json := None |}.

(** The process with configuration [c], a classifier that answers label
    [l] and score [sc] on every text, and the trading API down. *)
Definition env (c : Config) (l : string) (sc : float) : Env :=
  {| cfg := c;
     sent_clf := clf_const l sc;
     http_post := post_const api_down;
     hmac_sha256_hex := hmac_opaque;
     py_repr := repr_opaque;
     str_upper := upper_ascii;
     float_of_str := float_of_digits;
     int_of_str := int_of_digits |}.

(** Some floats: [0.21], [0.85], [0.7], [0.9], [2.0], [59.0], [75.0]. *)
Definition f0_21 : float := S754_finite false 7566047373982433 (-55).
Definition f0_85 : float := S754_finite false 7656119366529843 (-53).
Definition f0_7 : float := S754_finite false 6305039478318694 (-53).
Definition f0_9 : float := S754_finite false 8106479329266893 (-53).
Definition f2 : float := Eval vm_compute in binary_normalize prec emax 2 0 false.
Definition f59 : float := Eval vm_compute in binary_normalize prec emax 59 0 false.
Definition f75 : float := Eval vm_compute in binary_normalize prec emax 75 0 false.

(** The alert of the end-to-end scenarios. *)
Definition alert_buy (note : string) (confidence : pyval) : gmap string pyval :=
  {[ "token" := PStr "secret123"; "symbol" := PStr "BTCUSDT";
     "side" := PStr "buy"; "note" := PStr note; "confidence" := confidence ]}.

Definition run (E : Env) (data : pyval) : M Response :=
  webhook E {| get_json := Some data |}.

End Doubles.

(* ===================================================================== *)
(** ** What a run did to the outside *)
(* ===================================================================== *)

(** The requests posted to the trading API in a run, in order. *)
Definition posted {A} (m : M A) : list http_request :=
  omap (fun ev => match ev with EPost rq => Some rq | _ => None end) (trace m).

(** The texts given to the classifier in a run, in order. *)
Definition classified {A} (m : M A) : list string :=
  omap (fun ev => match ev with EClassify t => Some t | _ => None end) (trace m).

(** Collaborators that fail, and configurations that are incomplete. *)
Module Faults.

Definition clf_down : string -> outcome clf_result :=
  fun _ => Raise (ExternalError "classifier down").

Definition post_timeout : http_request -> outcome http_response :=
  fun _ => Raise (ExternalError "timeout").

(** The process of [Doubles.env] with the classifier down. *)
Definition env_clf_down (c : Config) : Env :=
  {| cfg := c;
     sent_clf := clf_down;
     http_post := Doubles.post_const Doubles.api_down;
     hmac_sha256_hex := Doubles.hmac_opaque;
     py_repr := Doubles.repr_opaque;
     str_upper := Doubles.upper_ascii;
     float_of_str := Doubles.float_of_digits;
     int_of_str := Doubles.int_of_digits |}.

(** The process of [Doubles.env] with the trading API out of reach. *)
Definition env_post_timeout (c : Config) (l : string) (sc : float) : Env :=
  {| cfg := c;
     sent_clf := Doubles.clf_const l sc;
     http_post := post_timeout;
     hmac_sha256_hex := Doubles.hmac_opaque;
     py_repr := Doubles.repr_opaque;
     str_upper := Doubles.upper_ascii;
     float_of_str := Doubles.float_of_digits;
     int_of_str := Doubles.int_of_digits |}.

(** A live configuration whose bot id is no integer, and one without a
    bot id. *)
Definition cfg_bad_bot : Config :=
  {| TV_WEBHOOK_TOKEN := "secret123"; API_KEY := "key"; API_SECRET := "shh";
     BOT_ID := "bot-7"; DRY_RUN := true |}.
Definition cfg_no_bot : Config :=
  {| TV_WEBHOOK_TOKEN := "secret123"; API_KEY := "key"; API_SECRET := "shh";
     BOT_ID := ""; DRY_RUN := false |}.

(** The environment of a process that was given the key and the secret
    but no bot id. *)
Definition environ_no_bot : gmap string string :=
  {[ "TV_WEBHOOK_TOKEN" := "secret123"; "THREECOMMAS_API_KEY" := "key";
     "THREECOMMAS_API_SECRET" := "shh"; "DRY_RUN" := "TRUE" ]}.

End Faults.

(** The alert of the scenarios, step by step. *)
Module MoreRuns.

Import Doubles.

(** The alert of the scenarios, as [extract] takes it apart. *)
Definition taken_apart (note : string) (confidence : float) : alert :=
  {| a_symbol := PStr "BTCUSDT"; a_exchange := "BINANCE"; a_side := "buy";
     a_note := PStr note; a_confidence := confidence; a_has_colon := false |}.

Definition buy_request (note : string) (confidence : pyval) : Request :=
  {| get_json := Some (PDict (alert_buy note confidence)) |}.

(** The request that the scenarios post. *)
Definition the_post (E : Env) : http_request :=
  deal_request E 12345 (PStr "BINANCE:BTCUSDT")
    "TV+FinBERT: buy (BUY allowed (sentiment 0.85))".

End MoreRuns.

(* ===================================================================== *)
(** ** Floats: order facts *)
(* ===================================================================== *)

Section FloatFacts.

(** Closes a goal that swaps the two mantissas of a comparison. *)
Ltac swap_mantissas ma mb :=
  try rewrite CompOpp_involutive; f_equal;
  first [ exact (Pos.compare_cont_antisym mb ma Eq)
        | exact (Pos.compare_cont_antisym ma mb Eq)
        | symmetry; exact (Pos.compare_cont_antisym ma mb Eq)
        | symmetry; exact (Pos.compare_cont_antisym mb ma Eq) ].

Lemma SFcompare_swap (a b : float) :
  SFcompare b a = CompOpp <$> SFcompare a b.
Proof.
  destruct a as [sa|sa| |sa ma ea], b as [sb|sb| |sb mb eb]; simpl;
    try reflexivity;
    try (destruct sa; reflexivity); try (destruct sb; reflexivity);
    try (destruct sa, sb; reflexivity).
  destruct sa, sb; simpl; try reflexivity;
    rewrite (Z.compare_antisym ea eb);
    destruct (ea ?= eb) eqn:E; simpl; try reflexivity;
    swap_mantissas ma mb.
Qed.

Lemma SFcompare_opp (a b : float) :
  SFcompare (SFopp a) (SFopp b) = SFcompare b a.
Proof.
  destruct a as [sa|sa| |sa ma ea], b as [sb|sb| |sb mb eb]; simpl;
    try reflexivity;
    try (destruct sa; reflexivity); try (destruct sb; reflexivity);
    try (destruct sa, sb; reflexivity).
  destruct sa, sb; simpl; try reflexivity;
    rewrite (Z.compare_antisym ea eb);
    destruct (ea ?= eb) eqn:E; simpl; try reflexivity;
    swap_mantissas ma mb.
Qed.

(** [a <= b] excludes [b < a]. *)
Lemma leb_not_gtb (a b : float) :
  PyFloat.leb a b = true -> PyFloat.ltb b a = false.
Proof.
  unfold PyFloat.leb, PyFloat.ltb, SFleb, SFltb.
  rewrite (SFcompare_swap a b).
  destruct (SFcompare a b) as [[]|]; simpl; congruence.
Qed.

Lemma leb_neg (a b : float) :
  PyFloat.leb (PyFloat.neg a) (PyFloat.neg b) = PyFloat.leb b a.
Proof. unfold PyFloat.leb, PyFloat.neg, SFleb. now rewrite SFcompare_opp. Qed.

(** A float of [0.0, 1.0] and its opposite lie in [-1.0, 1.0]. *)
Lemma unit_range_pos (f : float) :
  PyFloat.leb PyFloat.zero f = true -> PyFloat.leb f PyFloat.one = true ->
  in_unit_interval f = true.
Proof.
  intros H0 H1. unfold in_unit_interval. rewrite H1, andb_true_r.
  destruct f as [s|s| |s m e]; try reflexivity; try discriminate.
  - destruct s; [discriminate | reflexivity].
  - destruct s; [discriminate | reflexivity].
Qed.

Lemma unit_range_neg (f : float) :
  PyFloat.leb PyFloat.zero f = true -> PyFloat.leb f PyFloat.one = true ->
  in_unit_interval (PyFloat.neg f) = true.
Proof.
  intros H0 H1. unfold in_unit_interval.
  rewrite leb_neg, H1. simpl.
  destruct f as [s|s| |s m e]; try reflexivity; try discriminate.
  - destruct s; [discriminate | reflexivity].
  - destruct s; [discriminate | reflexivity].
Qed.

End FloatFacts.

(* ===================================================================== *)
(** ** The gates *)
(* ===================================================================== *)

Section Gates.

Variable E : Env.

Lemma sentiment_gate_true (side : string) (s : float) :
  fst (sentiment_gate side s) = true <-> aligned side s.
Proof.
  unfold sentiment_gate, aligned.
  destruct (String.eqb_spec side "buy") as [->|Hb];
    [|destruct (String.eqb_spec side "sell") as [->|Hs]].
  - destruct (PyFloat.gtb s two_tenths); cbn [andb fst].
    + split; [intros _; left; split; reflexivity | reflexivity].
    + split; [discriminate|]. intros [[_ H]|[H _]]; discriminate.
  - cbn [andb].
    destruct (PyFloat.ltb s (PyFloat.neg two_tenths)); cbn [andb fst].
    + split; [intros _; right; split; reflexivity | reflexivity].
    + split; [discriminate|]. intros [[H _]|[_ H]]; discriminate.
  - cbn [andb fst].
    split; [discriminate|]. intros [[H _]|[H _]]; contradiction.
Qed.

Lemma sentiment_gate_false (side : string) (s : float) :
  fst (sentiment_gate side s) = false ->
  sentiment_gate side s = (false, "Blocked by sentiment " +:+ format_2f s).
Proof.
  unfold sentiment_gate.
  destruct (String.eqb side "buy" && PyFloat.gtb s two_tenths);
    [discriminate|].
  destruct (String.eqb side "sell" && PyFloat.ltb s (PyFloat.neg two_tenths));
    [discriminate|]. reflexivity.
Qed.

(** Gate 2 can only take eligibility away. *)
Lemma confidence_gate_true (c : float) (d : bool * string) :
  fst (confidence_gate E c d) = true -> fst d = true.
Proof.
  unfold confidence_gate.
  destruct (PyFloat.truthy c && PyFloat.ltb c PyFloat.sixty); simpl; auto.
  discriminate.
Qed.

End Gates.

(** The examples of the decision gate: 0.21 passes a buy, 0.20 does not;
    -0.21 passes a sell, -0.20 does not. *)
Example gate_buy_0_21 :
  sentiment_gate "buy" Doubles.f0_21 = (true, "BUY allowed (sentiment 0.21)").
Proof. reflexivity. Qed.

Example gate_sell_0_21 :
  sentiment_gate "sell" (PyFloat.neg Doubles.f0_21)
  = (true, "SELL allowed (sentiment -0.21)").
Proof. reflexivity. Qed.

Example gate_buy_negative :
  sentiment_gate "buy" (PyFloat.neg Doubles.f0_7)
  = (false, "Blocked by sentiment -0.70").
Proof. reflexivity. Qed.


(* ===================================================================== *)
(** ** Running computations *)
(* ===================================================================== *)

Section MonadFacts.

Context {A B : Type}.

Lemma bind_Return (a : A) (k : A -> M B) : lift (Return a) ≫= k = k a.
Proof. unfold mbind, M_bind, bind, lift. now destruct (k a). Qed.

Lemma bind_Raise (e : exn) (k : A -> M B) : lift (Raise e) ≫= k = ([], Raise e).
Proof. reflexivity. Qed.

Lemma bind_mret (a : A) (k : A -> M B) : mret a ≫= k = k a.
Proof. apply bind_Return. Qed.

Lemma bind_run (t : list event) (o : outcome A) (k : A -> M B) :
  (t, o) ≫= k
  = match o with
    | Return a => (t ++ trace (k a), result (k a))
    | Raise e => (t, Raise e)
    end.
Proof.
  unfold mbind, M_bind, bind, trace, result.
  destruct o; [now destruct (k a) | reflexivity].
Qed.

End MonadFacts.

Lemma bind_emit {B : Type} (ev : event) (k : unit -> M B) :
  emit ev ≫= k = (ev :: trace (k tt), result (k tt)).
Proof. unfold emit. now rewrite bind_run. Qed.

(* ===================================================================== *)
(** ** Strings: white space and prefixes *)
(* ===================================================================== *)

Section StringFacts.

Lemma rstrip_empty (s : string) :
  PyStr.is_empty (PyStr.rstrip s) = all_space s.
Proof.
  induction s as [|c s IH]; [reflexivity|]. simpl.
  rewrite <- IH. now destruct (PyStr.isspace c), (PyStr.is_empty (PyStr.rstrip s)).
Qed.

Lemma lstrip_all_space (s : string) :
  all_space (PyStr.lstrip s) = all_space s.
Proof.
  induction s as [|c s IH]; [reflexivity|]. simpl.
  destruct (PyStr.isspace c) eqn:E; simpl; [exact IH | now rewrite E].
Qed.

(** [s.strip()] is empty exactly when [s] is blank. *)
Lemma strip_empty (s : string) :
  PyStr.is_empty (PyStr.strip s) = all_space s.
Proof. unfold PyStr.strip. now rewrite rstrip_empty, lstrip_all_space. Qed.

Lemma empty_all_space (s : string) :
  PyStr.is_empty s = true -> all_space s = true.
Proof. now destruct s. Qed.

Lemma slice_to_idem (n : nat) (s : string) :
  PyStr.slice_to n (PyStr.slice_to n s) = PyStr.slice_to n s.
Proof.
  revert s; induction n as [|n IH]; intros [|c s]; simpl; try reflexivity.
  now rewrite IH.
Qed.

Lemma slice_to_length (n : nat) (s : string) :
  (String.length (PyStr.slice_to n s) <= n)%nat.
Proof.
  revert s; induction n as [|n IH]; intros [|c s]; simpl; try lia.
  specialize (IH s). lia.
Qed.

(** A prefix that is not blank makes the text not blank. *)
Lemma slice_to_not_blank (n : nat) (s : string) :
  all_space (PyStr.slice_to n s) = false -> all_space s = false.
Proof.
  revert s; induction n as [|n IH]; intros [|c s]; simpl; try discriminate.
  destruct (PyStr.isspace c); simpl; [apply IH | reflexivity].
Qed.

End StringFacts.

(* ===================================================================== *)
(** ** [sentiment_score] *)
(* ===================================================================== *)

Section Scorer.

Variable E : Env.

(** The two runs of [sentiment_score] on a str: a blank text is scored
    0.0 with no call; any other text costs one call, on its first 500
    characters. *)
Lemma sentiment_score_str (t : string) :
  sentiment_score E (PStr t)
  = if all_space t then ([], Return PyFloat.zero)
    else ([EClassify (PyStr.slice_to 500 t)],
          r ← sent_clf E (PyStr.slice_to 500 t); mret (signed_score r)).
Proof.
  unfold sentiment_score. cbn [truthy].
  destruct (PyStr.is_empty t) eqn:Et; cbn [negb].
  - now rewrite (empty_all_space _ Et).
  - cbn [py_strip]. rewrite bind_Return, strip_empty.
    destruct (all_space t); [reflexivity|].
    cbn [py_slice_to]. rewrite bind_Return.
    unfold call_sent_clf. rewrite bind_emit.
    destruct (sent_clf E (PyStr.slice_to 500 t)) as [r|e]; [|reflexivity].
    cbn. unfold signed_score.
    destruct (PyStr.contains "positive" (PyStr.lower (label r)));
      [reflexivity|].
    now destruct (PyStr.contains "negative" (PyStr.lower (label r))).
Qed.

(** The scorer only ever calls the classifier. *)
Lemma sentiment_score_trace (v : pyval) (ev : event) :
  In ev (trace (sentiment_score E v)) -> exists input, ev = EClassify input.
Proof.
  destruct v as [|b|z|f|t|l|d];
    try (unfold sentiment_score; destruct (truthy _); cbn; tauto).
  rewrite sentiment_score_str. destruct (all_space t); cbn; [tauto|].
  intros [<-|[]]. eauto.
Qed.

End Scorer.

(** The label decides the sign, "positive" first. *)
Example signed_score_mixed_label :
  signed_score {| label := "Positive-Negative"; score := Doubles.f0_7 |} = Doubles.f0_7.
Proof. reflexivity. Qed.

(** C5, as stated, fails: a classifier whose magnitude is non-negative but
    above 1 (here 2.0 on every text, label "positive") makes the score leave
    [-1.0, 1.0]. *)
Lemma sentiment_score_exceeds_unit_interval :
  let E := Doubles.env Doubles.cfg_live "positive" Doubles.f2 in
  (forall t r, sent_clf E t = Return r -> PyFloat.leb PyFloat.zero (score r) = true)
  /\ sentiment_score E (PStr "rally") = ([EClassify "rally"], Return Doubles.f2)
  /\ in_unit_interval Doubles.f2 = false.
Proof.
  cbv zeta. split; [|split; reflexivity].
  intros t r [= <-]. reflexivity.
Qed.

(** C5, amended.  For every input text, given that the classifier returns
    a label and a magnitude in [0.0, 1.0], the scorer returns a float in
    [-1.0, 1.0]: 0.0 for a blank text, and otherwise +magnitude when the
    lower-cased label contains "positive", else -magnitude when it contains
    "negative", else 0.0. *)
Theorem sentiment_score_in_unit_interval
  (E : Env) (text : string) (r : clf_result) :
  sent_clf E (PyStr.slice_to 500 text) = Return r ->
  PyFloat.leb PyFloat.zero (score r) = true ->
  PyFloat.leb (score r) PyFloat.one = true ->
  exists s : float,
    result (sentiment_score E (PStr text)) = Return s
    /\ in_unit_interval s = true
    /\ (all_space text = true -> s = PyFloat.zero)
    /\ (all_space text = false ->
        let l := PyStr.lower (label r) in
        (PyStr.contains "positive" l = true -> s = score r)
        /\ (PyStr.contains "positive" l = false ->
            PyStr.contains "negative" l = true -> s = PyFloat.neg (score r))
        /\ (PyStr.contains "positive" l = false ->
            PyStr.contains "negative" l = false -> s = PyFloat.zero)).
Proof.
  intros Hclf H0 H1. rewrite sentiment_score_str.
  destruct (all_space text) eqn:Eb.
  - exists PyFloat.zero. repeat split; try reflexivity; discriminate.
  - rewrite Hclf. exists (signed_score r). cbn [result snd mbind outcome_bind].
    split; [reflexivity|]. unfold signed_score.
    destruct (PyStr.contains "positive" (PyStr.lower (label r))) eqn:Ep;
      [|destruct (PyStr.contains "negative" (PyStr.lower (label r))) eqn:En].
    + split; [now apply unit_range_pos|].
      split; [discriminate|]. intros _. cbv zeta.
      repeat split; intros; try reflexivity; discriminate.
    + split; [now apply unit_range_neg|].
      split; [discriminate|]. intros _. cbv zeta.
      repeat split; intros; try reflexivity; discriminate.
    + split; [reflexivity|].
      split; [discriminate|]. intros _. cbv zeta.
      repeat split; intros; try reflexivity; discriminate.
Qed.

Lemma sentiment_score_in_unit_interval_witness :
  exists s : float,
    result (sentiment_score (Doubles.env Doubles.cfg_live "NEGATIVE" Doubles.f0_7)
              (PStr "disappointing guidance, layoffs expected")) = Return s
    /\ in_unit_interval s = true.
Proof.
  destruct (sentiment_score_in_unit_interval
              (Doubles.env Doubles.cfg_live "NEGATIVE" Doubles.f0_7)
              "disappointing guidance, layoffs expected"
              {| label := "NEGATIVE"; score := Doubles.f0_7 |})
    as (s & Hs & Hr & _); [reflexivity | reflexivity | reflexivity |].
  exists s. split; [exact Hs | exact Hr].
Defined.

(** C6, as stated, fails: the blank test looks at the whole text and the
    classifier at its first 500 characters.  On 500 spaces followed by "x"
    the classifier is called (on the 500 spaces) and its answer is the
    score, while the first 500 characters alone are blank and score 0.0;
    and the 501st character decides which of the two happens. *)
Lemma sentiment_score_blank_prefix :
  let clf := Doubles.env Doubles.cfg_live "positive" Doubles.f0_9 in
  let t := Doubles.spaces 500 +:+ "x" in
  (500 < String.length t)%nat
  /\ result (sentiment_score clf (PStr t)) = Return Doubles.f0_9
  /\ result (sentiment_score clf (PStr (PyStr.slice_to 500 t))) = Return PyFloat.zero
  /\ PyStr.slice_to 500 (Doubles.spaces 501) = PyStr.slice_to 500 t
  /\ result (sentiment_score clf (PStr (Doubles.spaces 501))) = Return PyFloat.zero.
Proof. vm_compute. repeat split; lia. Qed.

(** C6, amended.  For every text whose first 500 characters are not all
    white space, in particular for such a text longer than 500 characters,
    the scorer does on the text what it does on its first 500 characters;
    and on every text the classifier is called on nothing but the first 500
    characters. *)
Theorem sentiment_score_truncation
  (E : Env) (t : string) :
  (all_space (PyStr.slice_to 500 t) = false ->
   sentiment_score E (PStr t)
   = sentiment_score E (PStr (PyStr.slice_to 500 t)))
  /\ (forall input,
        In (EClassify input) (trace (sentiment_score E (PStr t))) ->
        input = PyStr.slice_to 500 t /\ (String.length input <= 500)%nat).
Proof.
  split.
  - intros Hp. rewrite !sentiment_score_str, slice_to_idem, Hp.
    now rewrite (slice_to_not_blank _ _ Hp).
  - intros input. rewrite sentiment_score_str.
    destruct (all_space t); cbn [trace fst In]; [tauto|].
    intros [H|[]]. assert (input = PyStr.slice_to 500 t) as -> by congruence.
    split; [reflexivity | apply slice_to_length].
Qed.

Lemma sentiment_score_truncation_witness :
  let E := Doubles.env Doubles.cfg_live "positive" Doubles.f0_9 in
  let t := "up " +:+ Doubles.spaces 500 +:+ "x" in
  sentiment_score E (PStr t) = sentiment_score E (PStr (PyStr.slice_to 500 t)).
Proof.
  cbv zeta.
  apply (sentiment_score_truncation (Doubles.env Doubles.cfg_live "positive" Doubles.f0_9)
           ("up " +:+ Doubles.spaces 500 +:+ "x")).
  reflexivity.
Defined.

(* ===================================================================== *)
(** ** [start_deal] and [webhook], run by run *)
(* ===================================================================== *)

Section Handler.

Variable E : Env.

Lemma start_deal_run (bot_id : string) (pair : pyval) (message : string) :
  start_deal E bot_id pair message
  = match int_of_str E bot_id with
    | None => ([], Raise ValueError)
    | Some n =>
        let rq := deal_request E n pair message in
        if DRY_RUN (cfg E) then
          ([EPrint ("[DRY_RUN] Would call 3Commas start_deal: "
                    +:+ py_repr E (rq_json rq))],
           Return dry_run_marker)
        else
          match http_post E rq with
          | Return r =>
              ([EPost rq;
                EPrint ("3Commas response: " +:+ py_str E (response_data r))],
               Return (response_data r))
          | Raise e => ([EPost rq], Raise e)
          end
    end.
Proof.
  unfold start_deal, py_int.
  destruct (int_of_str E bot_id) as [n|]; [|reflexivity].
  rewrite bind_Return. cbv zeta.
  destruct (DRY_RUN (cfg E)).
  - unfold print. rewrite bind_emit. reflexivity.
  - rewrite bind_emit.
    assert (Hrq : {| rq_url := BASE_URL +:+ "/ver1/bots/start_deal";
                     rq_headers := <["Signature" := _sign E ""]> (_headers E);
                     rq_params := ∅;
                     rq_json := PDict {[ "bot_id" := PInt n; "pair" := pair;
                                         "message" := PStr (PyStr.slice_to 240 message) ]};
                     rq_timeout := 20 |} = deal_request E n pair message).
    { unfold deal_request, _sign, _headers. f_equal. }
    rewrite Hrq.
    destruct (http_post E (deal_request E n pair message)) as [r|e]; [|reflexivity].
    cbn [lift trace result fst snd]. rewrite bind_run.
    unfold print. rewrite bind_emit. reflexivity.
Qed.

Lemma webhook_invalid_json :
  webhook E {| get_json := None |} = ([], Return invalid_json_response).
Proof. reflexivity. Qed.

Lemma webhook_not_dict (data : pyval) :
  (forall d, data <> PDict d) ->
  webhook E {| get_json := Some data |} = ([], Raise AttributeError).
Proof. intros H. destruct data; try reflexivity. now destruct (H d). Qed.

Lemma webhook_unauthorized (d : gmap string pyval) :
  authorized E d = false ->
  webhook E {| get_json := Some (PDict d) |} = ([], Return bad_token_response).
Proof.
  unfold authorized, webhook. intros H%negb_false_iff.
  cbn [get_json py_get]. rewrite bind_Return.
  rewrite H. reflexivity.
Qed.

Lemma webhook_authorized (d : gmap string pyval) :
  authorized E d = true ->
  webhook E {| get_json := Some (PDict d) |}
  = match extract E d with
    | Return a => after_extract E a
    | Raise e => ([], Raise e)
    end.
Proof.
  unfold authorized, webhook. intros H%negb_true_iff.
  cbn [get_json py_get]. rewrite bind_Return.
  rewrite H.
  unfold extract. cbn [py_get mbind outcome_bind]. rewrite bind_Return.
  destruct (py_upper _ _) as [exchange|e];
    [rewrite bind_Return; cbn [mbind outcome_bind] | reflexivity].
  destruct (py_lower _) as [side|e];
    [rewrite bind_Return; cbn [mbind outcome_bind] | reflexivity].
  rewrite bind_Return.
  destruct (py_float _ _) as [confidence|e];
    [rewrite bind_Return; cbn [mbind outcome_bind] | reflexivity].
  destruct (py_in _ _) as [has_colon|e];
    [rewrite bind_Return; cbn [mbind outcome_bind] | reflexivity].
  cbn [mret outcome_ret]. unfold after_extract. cbn [a_note].
  destruct (sentiment_score _ _) as [tr [s|e]]; [|reflexivity].
  rewrite bind_run. unfold decision, log_line, pair_of, deal_message, decision.
  cbn [a_symbol a_exchange a_side a_note a_confidence a_has_colon].
  destruct (confidence_gate _ _ _) as [should_trade reason].
  unfold print. rewrite bind_emit. cbn [fst snd trace result].
  destruct should_trade; cbn [negb]; [|reflexivity].
  unfold configured. destruct (negb (_ && _ && _)); [reflexivity|].
  destruct (start_deal _ _ _ _) as [tr' [resp|e]]; rewrite bind_run;
    cbn [trace result fst snd mret M_ret ret mbind outcome_bind outcome_ret];
    rewrite ?app_nil_r; reflexivity.
Qed.

End Handler.

(* ===================================================================== *)
(** ** The dispatcher and the handler: the properties *)
(* ===================================================================== *)

Section HandlerFacts.

Variable E : Env.

(** The token check passes exactly when no token is configured or the
    payload carries the configured one. *)
Lemma authorized_iff (d : gmap string pyval) :
  authorized E d = true
  <-> TV_WEBHOOK_TOKEN (cfg E) = "" \/ d !! "token" = Some (PStr (TV_WEBHOOK_TOKEN (cfg E))).
Proof.
  unfold authorized. rewrite negb_true_iff, andb_false_iff, negb_false_iff.
  split.
  - intros [H|H].
    + left. now destruct (TV_WEBHOOK_TOKEN (cfg E)).
    + destruct (d !! "token") as [v|].
      * destruct v; try discriminate. unfold py_ne_str in H.
        apply negb_false_iff, String.eqb_eq in H. right. now subst.
      * unfold py_ne_str in H.
        apply negb_false_iff, String.eqb_eq in H. now left.
  - intros [H|H]; [left; now rewrite H | right].
    rewrite H. unfold py_ne_str. now rewrite String.eqb_refl.
Qed.

Lemma post_not_scored (v : pyval) (rq : http_request) :
  ~ In (EPost rq) (trace (sentiment_score E v)).
Proof. intros H. apply sentiment_score_trace in H as [input H]. discriminate. Qed.

(** Where a request of the trading API can come from: the live branch of
    [start_deal], with a bot id that is an integer. *)
Lemma start_deal_post (bot_id : string) (pair : pyval) (message : string)
  (rq : http_request) :
  In (EPost rq) (trace (start_deal E bot_id pair message)) ->
  exists n, int_of_str E bot_id = Some n /\ DRY_RUN (cfg E) = false
            /\ rq = deal_request E n pair message.
Proof.
  rewrite start_deal_run.
  destruct (int_of_str E bot_id) as [n|]; [|intros []].
  cbv zeta. destruct (DRY_RUN (cfg E)).
  - intros [H|[]]. discriminate.
  - intros H. exists n. split; [reflexivity|]. split; [reflexivity|].
    destruct (http_post E _) as [r|e]; cbn in H.
    + destruct H as [H|[H|[]]]; [congruence | discriminate].
    + destruct H as [H|[]]. congruence.
Qed.

Lemma start_deal_forwards (bot_id : string) (pair : pyval) (message : string)
  (rq : http_request) (r : http_response) :
  In (EPost rq) (trace (start_deal E bot_id pair message)) ->
  http_post E rq = Return r ->
  result (start_deal E bot_id pair message) = Return (response_data r).
Proof.
  intros Hin Hr. destruct (start_deal_post _ _ _ _ Hin) as (n & Hn & Hdry & ->).
  rewrite start_deal_run, Hn. cbv zeta. now rewrite Hdry, Hr.
Qed.

(** The runs of the handler that dispatch: they come from a dict payload
    that passes the token check and is taken apart without an exception,
    whose note is scored, and whose decision is to trade. *)
Lemma after_extract_dispatch (a : alert) :
  (exists rq, In (EPost rq) (trace (after_extract E a)))
  \/ (exists resp, result (after_extract E a) = Return (deal_started_response resp)) ->
  exists tr s,
    sentiment_score E (a_note a) = (tr, Return s)
    /\ fst (decision E a s) = true
    /\ configured E = true
    /\ after_extract E a
       = (tr ++ log_line E a s
             :: trace (start_deal E (BOT_ID (cfg E)) (pair_of E a) (deal_message E a s)),
          resp ← result (start_deal E (BOT_ID (cfg E)) (pair_of E a) (deal_message E a s));
          mret (deal_started_response resp)).
Proof.
  unfold after_extract.
  destruct (sentiment_score E (a_note a)) as [tr [s|e]] eqn:Hs.
  - destruct (fst (decision E a s)) eqn:Hd; cbn [negb].
    + destruct (configured E) eqn:Hc; cbn [negb].
      * intros _. exists tr, s. auto.
      * intros [[rq H]|[resp H]]; [|discriminate].
        cbn [trace fst] in H. apply in_app_or in H as [H|[H|[]]]; [|discriminate].
        exfalso. apply (post_not_scored (a_note a) rq). now rewrite Hs.
    + intros [[rq H]|[resp H]]; [|discriminate].
      cbn [trace fst] in H. apply in_app_or in H as [H|[H|[]]]; [|discriminate].
      exfalso. apply (post_not_scored (a_note a) rq). now rewrite Hs.
  - intros [[rq H]|[resp H]]; [|discriminate].
    exfalso. apply (post_not_scored (a_note a) rq). now rewrite Hs.
Qed.

Lemma webhook_dispatch (request : Request) :
  (exists rq, In (EPost rq) (trace (webhook E request)))
  \/ (exists resp, result (webhook E request) = Return (deal_started_response resp)) ->
  exists d a,
    get_json request = Some (PDict d)
    /\ authorized E d = true
    /\ extract E d = Return a
    /\ webhook E request = after_extract E a.
Proof.
  destruct request as [[data|]].
  - destruct data as [| | | | | |d];
      try (intros [[rq []]|[resp H]]; discriminate).
    destruct (authorized E d) eqn:Ha.
    + rewrite webhook_authorized by exact Ha.
      destruct (extract E d) as [a|e] eqn:He.
      * intros _. exists d, a. auto.
      * intros [[rq []]|[resp H]]; discriminate.
    + rewrite webhook_unauthorized by exact Ha.
      intros [[rq []]|[resp H]]; discriminate.
  - intros [[rq []]|[resp H]]; discriminate.
Qed.

(** Taking the payload apart fails when [symbol] is missing: if nothing
    fails before, the test [":" not in symbol] raises [TypeError] on
    [None]. *)
Lemma extract_missing_symbol (d : gmap string pyval) :
  d !! "symbol" = None -> exists e, extract E d = Raise e.
Proof.
  intros Hs. unfold extract. cbn [py_get mbind outcome_bind]. rewrite Hs.
  destruct (py_upper _ _); [cbn [mbind outcome_bind]|eauto].
  destruct (py_lower _); [cbn [mbind outcome_bind]|eauto].
  destruct (py_float _ _); [cbn [mbind outcome_bind py_in]|eauto].
  eauto.
Qed.

(** C1 (the code departs from it).  For every parsed, authenticated request
    whose payload lacks [symbol], the handler raises an exception before it
    scores, logs or dispatches anything; it returns no response of its own,
    in particular no 4xx one.  When the other fields are in order the
    exception is the [TypeError] of [":" not in symbol] on line 98. *)
Theorem webhook_missing_symbol_raises (d : gmap string pyval) :
  d !! "symbol" = None ->
  TV_WEBHOOK_TOKEN (cfg E) = "" \/ d !! "token" = Some (PStr (TV_WEBHOOK_TOKEN (cfg E))) ->
  (exists e, webhook E {| get_json := Some (PDict d) |} = ([], Raise e))
  /\ ((d !! "exchange" = None \/ exists x, d !! "exchange" = Some (PStr x)) ->
      (d !! "side" = None \/ exists x, d !! "side" = Some (PStr x)) ->
      (exists c, (x ← py_get (PDict d) "confidence" (PInt 0); py_float E x) = Return c) ->
      webhook E {| get_json := Some (PDict d) |} = ([], Raise TypeError)).
Proof.
  intros Hs Ha%authorized_iff. rewrite webhook_authorized by exact Ha. split.
  - destruct (extract_missing_symbol d Hs) as [e ->]. eauto.
  - intros Hex Hside [c Hc].
    assert (He : extract E d = Raise TypeError); [|now rewrite He].
    unfold extract. cbn [py_get mbind outcome_bind] in Hc |- *. rewrite Hs, Hc.
    destruct Hex as [->|[x ->]], Hside as [->|[y ->]]; reflexivity.
Qed.

(** C4. For every parsed request: when a non-empty webhook token is
    configured and the payload's [token] is not exactly that token (absent
    or of another type included), the handler returns 401 with the body
    [{ok: false, error: "bad token"}] and does nothing else; when the
    configured token is empty, the handler does with any token value what it
    does without a token, and never answers 401. *)
Theorem webhook_token_check (d : gmap string pyval) :
  (TV_WEBHOOK_TOKEN (cfg E) <> "" ->
   d !! "token" <> Some (PStr (TV_WEBHOOK_TOKEN (cfg E))) ->
   webhook E {| get_json := Some (PDict d) |}
   = ([], Return {| body := jsonify {[ "ok" := PBool false; "error" := PStr "bad token" ]};
                    status := 401 |}))
  /\ (TV_WEBHOOK_TOKEN (cfg E) = "" ->
      (forall tok : pyval,
         webhook E {| get_json := Some (PDict (<["token" := tok]> d)) |}
         = webhook E {| get_json := Some (PDict (delete "token" d)) |})
      /\ (forall tr r, webhook E {| get_json := Some (PDict d) |} = (tr, Return r) ->
                       status r <> 401)).
Proof.
  split.
  - intros Hne Htok. apply webhook_unauthorized.
    destruct (authorized E d) eqn:Ha; [|reflexivity].
    apply authorized_iff in Ha as [Ha|Ha]; contradiction.
  - intros Hopen. split.
    + intros tok.
      rewrite !webhook_authorized by (apply authorized_iff; now left).
      assert (He : extract E (<["token" := tok]> d)
                   = extract E (delete "token" d)).
      { unfold extract. cbn [py_get].
        rewrite !lookup_insert_ne, !lookup_delete_ne by discriminate.
        reflexivity. }
      now rewrite He.
    + intros tr r. rewrite webhook_authorized by (apply authorized_iff; now left).
      destruct (extract E d) as [a|e]; [|discriminate].
      unfold after_extract.
      destruct (sentiment_score E (a_note a)) as [tr' [s|e]]; [|discriminate].
      destruct (negb (fst (decision E a s))); [intros [= _ <-]; discriminate|].
      destruct (negb (configured E)); [intros [= _ <-]; discriminate|].
      cbv zeta. destruct (result _) as [resp|e]; [|discriminate].
      intros [= _ <-]. discriminate.
Qed.

(** C7. Whenever the dry-run flag is set, [start_deal], on every bot id
    that is an integer, every pair and every message, performs no network
    call and returns exactly [{status: "dry_run"}]. *)
Theorem start_deal_dry_run
  (bot_id : string) (pair : pyval) (message : string) (n : Z) :
  DRY_RUN (cfg E) = true ->
  int_of_str E bot_id = Some n ->
  result (start_deal E bot_id pair message)
  = Return (PDict {[ "status" := PStr "dry_run" ]})
  /\ no_network (start_deal E bot_id pair message).
Proof.
  intros Hdry Hn. rewrite start_deal_run, Hn. cbv zeta. rewrite Hdry.
  split; reflexivity.
Qed.

(** C8. In live mode, whatever the trading API answers to the request that
    [start_deal] posts, [start_deal] returns the parsed JSON body or, when
    the body does not parse, the record of the raw status code and text; no
    status code makes it raise; and the handler returns that value as the
    [threecommas] field of the 200 response
    [{ok: true, action: "deal_started"}]. *)
Theorem upstream_response_forwarded :
  (forall bot_id pair message n,
     DRY_RUN (cfg E) = false -> int_of_str E bot_id = Some n ->
     exists rq, In (EPost rq) (trace (start_deal E bot_id pair message)))
  /\ (forall bot_id pair message rq r,
        In (EPost rq) (trace (start_deal E bot_id pair message)) ->
        http_post E rq = Return r ->
        result (start_deal E bot_id pair message)
        = Return (match rs_json r with
                  | Some v => v
                  | None => PDict {[ "status_code" := PInt (rs_status_code r);
                                     "text" := PStr (rs_text r) ]}
                  end))
  /\ (forall request rq r,
        In (EPost rq) (trace (webhook E request)) ->
        http_post E rq = Return r ->
        result (webhook E request)
        = Return {| body := jsonify {[ "ok" := PBool true;
                                       "action" := PStr "deal_started";
                                       "threecommas" := response_data r ]};
                    status := 200 |}).
Proof.
  split; [|split].
  - intros bot_id pair message n Hlive Hn.
    exists (deal_request E n pair message).
    rewrite start_deal_run, Hn. cbv zeta. rewrite Hlive.
    destruct (http_post E _); left; reflexivity.
  - intros bot_id pair message rq r Hin Hr.
    exact (start_deal_forwards bot_id pair message rq r Hin Hr).
  - intros request rq r Hin Hr.
    destruct (webhook_dispatch request) as (d & a & _ & _ & _ & Hw);
      [left; now exists rq|].
    rewrite Hw in Hin |- *.
    destruct (after_extract_dispatch a) as (tr & s & Hs & _ & _ & Ha);
      [left; now exists rq|].
    rewrite Ha in Hin |- *. cbn [trace result fst snd] in Hin |- *.
    apply in_app_or in Hin as [Hin|[Hin|Hin]]; [| discriminate |].
    + exfalso. apply (post_not_scored (a_note a) rq). now rewrite Hs.
    + now rewrite (start_deal_forwards _ _ _ _ _ Hin Hr).
Qed.

(** C9. The final decision is trade-eligible only if Gate 1 passed: side
    "buy" with the sentiment strictly above 0.2, or side "sell" with the
    sentiment strictly below -0.2, whatever the confidence.  So a run of the
    handler that posts to the trading API, or that answers "deal_started",
    is a run on a payload whose lower-cased side and scored note pass
    Gate 1. *)
Theorem eligibility_requires_alignment :
  (forall (side : string) (s c : float),
     fst (confidence_gate E c (sentiment_gate side s)) = true ->
     (side = "buy" /\ PyFloat.gtb s two_tenths = true)
     \/ (side = "sell" /\ PyFloat.ltb s (PyFloat.neg two_tenths) = true))
  /\ (forall request : Request,
        (exists rq, In (EPost rq) (trace (webhook E request)))
        \/ (exists resp, result (webhook E request) = Return (deal_started_response resp)) ->
        exists d a s,
          get_json request = Some (PDict d)
          /\ extract E d = Return a
          /\ result (sentiment_score E (a_note a)) = Return s
          /\ ((a_side a = "buy" /\ PyFloat.gtb s two_tenths = true)
              \/ (a_side a = "sell" /\ PyFloat.ltb s (PyFloat.neg two_tenths) = true))).
Proof.
  assert (Hgate : forall side s c,
             fst (confidence_gate E c (sentiment_gate side s)) = true ->
             aligned side s).
  { intros side s c H. now apply sentiment_gate_true, (confidence_gate_true E c). }
  split; [exact Hgate|].
  intros request H.
  destruct (webhook_dispatch request H) as (d & a & Hd & _ & He & Hw).
  rewrite Hw in H.
  destruct (after_extract_dispatch a H) as (tr & s & Hs & Hdec & _).
  exists d, a, s. repeat split; try assumption.
  - now rewrite Hs.
  - exact (Hgate _ _ _ Hdec).
Qed.

(** C10. There is a syntactically valid, authenticated request whose
    [confidence] is present but is no number, the string "high" (which
    [float] refuses) or [null], on which the handler raises the exception of
    the conversion, [ValueError] or [TypeError], and returns no response. *)
Theorem webhook_confidence_not_numeric_raises :
  (float_of_str E "high" = None ->
   webhook E {| get_json := Some (PDict {[ "token" := PStr (TV_WEBHOOK_TOKEN (cfg E));
                                          "symbol" := PStr "BTCUSDT";
                                          "side" := PStr "buy";
                                          "note" := PStr "strong earnings beat";
                                          "confidence" := PStr "high" ]}) |}
   = ([], Raise ValueError))
  /\ webhook E {| get_json := Some (PDict {[ "token" := PStr (TV_WEBHOOK_TOKEN (cfg E));
                                            "symbol" := PStr "BTCUSDT";
                                            "side" := PStr "buy";
                                            "note" := PStr "strong earnings beat";
                                            "confidence" := PNone ]}) |}
     = ([], Raise TypeError).
Proof.
  split; [intros Hhigh|];
    (rewrite webhook_authorized by (apply authorized_iff; right; reflexivity)).
  - assert (He : extract E
                   {[ "token" := PStr (TV_WEBHOOK_TOKEN (cfg E));
                      "symbol" := PStr "BTCUSDT"; "side" := PStr "buy";
                      "note" := PStr "strong earnings beat";
                      "confidence" := PStr "high" ]} = Raise ValueError).
    { unfold extract. cbn [py_get].
      repeat (rewrite lookup_insert_ne by discriminate).
      rewrite ?lookup_insert_eq, ?lookup_singleton_eq, ?lookup_singleton_ne by discriminate.
      cbn - [float_of_str]. now rewrite Hhigh. }
    now rewrite He.
  - assert (He : extract E
                   {[ "token" := PStr (TV_WEBHOOK_TOKEN (cfg E));
                      "symbol" := PStr "BTCUSDT"; "side" := PStr "buy";
                      "note" := PStr "strong earnings beat";
                      "confidence" := PNone ]} = Raise TypeError).
    { unfold extract. cbn [py_get].
      repeat (rewrite lookup_insert_ne by discriminate).
      rewrite ?lookup_insert_eq, ?lookup_singleton_eq, ?lookup_singleton_ne by discriminate.
      reflexivity. }
    now rewrite He.
Qed.

End HandlerFacts.

(* ===================================================================== *)
(** ** Runs on concrete alerts *)
(* ===================================================================== *)

Module Runs.

Import Doubles.

(** A positive note at 0.85 with confidence 75: the deal is started on
    "BINANCE:BTCUSDT"; here in dry-run mode. *)
Example run_positive_dry :
  run (env cfg_dry "positive" f0_85)
      (PDict (alert_buy "strong earnings beat" (PInt 75)))
  = ([EClassify "strong earnings beat"; EPrint "[TV] pair=BINANCE:BTCUSDT side=buy sentiment=0.85 conf=<repr> note=<repr> -> BUY allowed (sentiment 0.85)";
      EPrint "[DRY_RUN] Would call 3Commas start_deal: <repr>"],
     Return {| body := PDict {[ "ok" := PBool true; "action" := PStr "deal_started";
                                "threecommas" := PDict {[ "status" := PStr "dry_run" ]} ]};
               status := 200 |}).
Proof. vm_compute. reflexivity. Qed.

(** The same alert with a negative note at 0.7 is blocked by Gate 1. *)
Example run_negative_skipped :
  result (run (env cfg_live "negative" f0_7)
              (PDict (alert_buy "disappointing guidance, layoffs expected" (PInt 75))))
  = Return {| body := PDict {[ "ok" := PBool true; "action" := PStr "skipped";
                               "reason" := PStr "Blocked by sentiment -0.70" ]};
              status := 200 |}.
Proof. vm_compute. reflexivity. Qed.

(** Pair derivation: the exchange is prefixed unless the symbol has a
    colon. *)
Example pair_plain :
  pair_of (env cfg_live "positive" f0_85)
          {| a_symbol := PStr "BTCUSDT"; a_exchange := "BINANCE";
             a_side := "buy"; a_note := PStr ""; a_confidence := zero;
             a_has_colon := false |}
  = PStr "BINANCE:BTCUSDT".
Proof. reflexivity. Qed.

Example extract_qualified_symbol :
  extract (env cfg_live "positive" f0_85)
          {[ "symbol" := PStr "BINANCE:BTCUSDT"; "exchange" := PStr "kraken" ]}
  = Return {| a_symbol := PStr "BINANCE:BTCUSDT"; a_exchange := "KRAKEN";
              a_side := ""; a_note := PStr ""; a_confidence := zero;
              a_has_colon := true |}.
Proof. vm_compute. reflexivity. Qed.

(** The failing input of C1: no [symbol], everything else in order.  The
    handler raises [TypeError] on line 98. *)
Example run_missing_symbol :
  run (env cfg_live "positive" f0_85)
      (PDict {[ "token" := PStr "secret123"; "side" := PStr "buy";
                "note" := PStr "strong earnings beat"; "confidence" := PInt 75 ]})
  = ([], Raise TypeError).
Proof. vm_compute. reflexivity. Qed.

(** A payload that is valid JSON but no object has no [get]. *)
Example run_not_an_object :
  run (env cfg_live "positive" f0_85) (PList []) = ([], Raise AttributeError).
Proof. reflexivity. Qed.

(** [DRY_RUN] is read without regard to case. *)
Example load_config_dry_run :
  DRY_RUN (load_config {[ "DRY_RUN" := "True" ]}) = true
  /\ DRY_RUN (load_config ∅) = false.
Proof. split; reflexivity. Qed.

(** The constants of the gates and the floats of the examples are binary64
    values. *)
Example constants_binary64 :
  forallb is_binary64
    [zero; one; sixty; two_tenths; neg two_tenths;
     f0_21; f0_85; f0_7; f0_9; f2; f59; f75] = true.
Proof. reflexivity. Qed.

End Runs.

(* ===================================================================== *)
(** ** Instances of the properties *)
(* ===================================================================== *)

Lemma webhook_missing_symbol_raises_witness :
  webhook (Doubles.env Doubles.cfg_live "positive" Doubles.f0_85)
    {| get_json := Some (PDict {[ "token" := PStr "secret123"; "side" := PStr "buy";
                                  "note" := PStr "strong earnings beat";
                                  "confidence" := PInt 75 ]}) |}
  = ([], Raise TypeError).
Proof.
  apply (webhook_missing_symbol_raises (Doubles.env Doubles.cfg_live "positive" Doubles.f0_85)).
  - reflexivity.
  - right. reflexivity.
  - left. reflexivity.
  - right. exists "buy". reflexivity.
  - exists Doubles.f75. reflexivity.
Defined.

Lemma webhook_token_check_witness :
  webhook (Doubles.env Doubles.cfg_live "positive" Doubles.f0_85)
    {| get_json := Some (PDict {[ "token" := PStr ""; "symbol" := PStr "BTCUSDT" ]}) |}
  = ([], Return {| body := jsonify {[ "ok" := PBool false; "error" := PStr "bad token" ]};
                   status := 401 |})
  /\ forall tok : pyval,
       webhook (Doubles.env Doubles.cfg_open "positive" Doubles.f0_85)
         {| get_json := Some (PDict (<["token" := tok]> {[ "symbol" := PStr "BTCUSDT" ]})) |}
       = webhook (Doubles.env Doubles.cfg_open "positive" Doubles.f0_85)
           {| get_json := Some (PDict (delete "token" {[ "symbol" := PStr "BTCUSDT" ]})) |}.
Proof.
  split.
  - destruct (webhook_token_check (Doubles.env Doubles.cfg_live "positive" Doubles.f0_85)
                {[ "token" := PStr ""; "symbol" := PStr "BTCUSDT" ]}) as [H _].
    apply H; discriminate.
  - destruct (webhook_token_check (Doubles.env Doubles.cfg_open "positive" Doubles.f0_85)
                {[ "symbol" := PStr "BTCUSDT" ]}) as [_ H].
    destruct (H eq_refl) as [Htok _]. exact Htok.
Defined.

Lemma start_deal_dry_run_witness :
  let E := Doubles.env Doubles.cfg_dry "positive" Doubles.f0_85 in
  let message := "TV+FinBERT: buy (BUY allowed (sentiment 0.85))" in
  result (start_deal E "12345" (PStr "BINANCE:BTCUSDT") message)
  = Return (PDict {[ "status" := PStr "dry_run" ]})
  /\ no_network (start_deal E "12345" (PStr "BINANCE:BTCUSDT") message).
Proof.
  cbv zeta.
  apply (start_deal_dry_run (Doubles.env Doubles.cfg_dry "positive" Doubles.f0_85)
           "12345" (PStr "BINANCE:BTCUSDT") _ 12345); reflexivity.
Defined.

Lemma upstream_response_forwarded_witness :
  result (Doubles.run (Doubles.env Doubles.cfg_live "positive" Doubles.f0_85)
            (PDict (Doubles.alert_buy "strong earnings beat" (PInt 75))))
  = Return {| body := PDict {[ "ok" := PBool true; "action" := PStr "deal_started";
                               "threecommas" :=
                                 PDict {[ "status_code" := PInt 500;
                                          "text" := PStr "Internal Server Error" ]} ]};
              status := 200 |}.
Proof.
  destruct (upstream_response_forwarded
              (Doubles.env Doubles.cfg_live "positive" Doubles.f0_85))
    as (_ & _ & H).
  pose proof (H {| get_json := Some (PDict (Doubles.alert_buy "strong earnings beat" (PInt 75))) |}
                (deal_request (Doubles.env Doubles.cfg_live "positive" Doubles.f0_85)
                   12345 (PStr "BINANCE:BTCUSDT")
                   "TV+FinBERT: buy (BUY allowed (sentiment 0.85))")
                Doubles.api_down) as H'.
  vm_compute in H'. vm_compute.
  apply H'; [right; right; left|]; reflexivity.
Defined.

Lemma eligibility_requires_alignment_witness :
  ("buy" = "buy" /\ PyFloat.gtb Doubles.f0_85 two_tenths = true)
  \/ ("buy" = "sell" /\ PyFloat.ltb Doubles.f0_85 (PyFloat.neg two_tenths) = true).
Proof.
  destruct (eligibility_requires_alignment
              (Doubles.env Doubles.cfg_live "positive" Doubles.f0_85))
    as (H & _).
  apply (H "buy" Doubles.f0_85 Doubles.f75). reflexivity.
Defined.

Lemma webhook_confidence_not_numeric_raises_witness :
  webhook (Doubles.env Doubles.cfg_live "positive" Doubles.f0_85)
    {| get_json := Some (PDict {[ "token" := PStr "secret123";
                                  "symbol" := PStr "BTCUSDT";
                                  "side" := PStr "buy";
                                  "note" := PStr "strong earnings beat";
                                  "confidence" := PStr "high" ]}) |}
  = ([], Raise ValueError).
Proof.
  destruct (webhook_confidence_not_numeric_raises
              (Doubles.env Doubles.cfg_live "positive" Doubles.f0_85))
    as (H & _).
  apply H. reflexivity.
Defined.

(* ===================================================================== *)
(** ** Further properties: shared lemmas *)
(* ===================================================================== *)

Section RunFacts.

Variable E : Env.

Lemma no_network_iff {A : Type} (m : M A) :
  no_network m <-> forall rq, ~ In (EPost rq) (trace m).
Proof.
  unfold no_network. rewrite forallb_forall. split.
  - intros H rq Hin. specialize (H _ Hin). discriminate.
  - intros H [i|l|rq] Hin; try reflexivity. destruct (H rq Hin).
Qed.

Lemma posted_nil_iff {A : Type} (m : M A) :
  posted m = [] <-> forall rq, ~ In (EPost rq) (trace m).
Proof.
  unfold posted. induction (trace m) as [|ev tr IH]; cbn.
  - split; [intros _ rq [] | reflexivity].
  - destruct ev as [i|l|rq]; cbn.
    + rewrite IH. split; [intros H rq [?|?]; [discriminate | now apply (H rq)]
                         | intros H rq Hin; apply (H rq); now right].
    + rewrite IH. split; [intros H rq [?|?]; [discriminate | now apply (H rq)]
                         | intros H rq Hin; apply (H rq); now right].
    + split; [discriminate | intros H; destruct (H rq); now left].
Qed.

(** The scorer posts nothing, and logs nothing. *)
Lemma sentiment_score_posted (v : pyval) : posted (sentiment_score E v) = [].
Proof. apply posted_nil_iff. intros rq. apply post_not_scored. Qed.

(** What [extract] returns, field by field. *)
Lemma extract_inv (d : gmap string pyval) (a : alert) :
  extract E d = Return a ->
  a_symbol a = match d !! "symbol" with Some x => x | None => PNone end
  /\ py_upper E (match d !! "exchange" with Some x => x | None => PStr "BINANCE" end)
     = Return (a_exchange a)
  /\ py_lower (match d !! "side" with Some x => x | None => PStr "" end)
     = Return (a_side a)
  /\ a_note a = match d !! "note" with Some x => x | None => PStr "" end
  /\ py_float E (match d !! "confidence" with Some x => x | None => PInt 0 end)
     = Return (a_confidence a)
  /\ py_in ":" (a_symbol a) = Return (a_has_colon a).
Proof.
  unfold extract. cbn [py_get mbind outcome_bind].
  destruct (py_upper _ _) as [ex|] eqn:Hex; [cbn [mbind outcome_bind]|discriminate].
  destruct (py_lower _) as [sd|] eqn:Hsd; [cbn [mbind outcome_bind]|discriminate].
  destruct (py_float _ _) as [c|] eqn:Hc; [cbn [mbind outcome_bind]|discriminate].
  destruct (py_in _ _) as [hc|] eqn:Hin; [cbn [mbind outcome_bind]|discriminate].
  intros [= <-].
  cbn [a_symbol a_exchange a_side a_note a_confidence a_has_colon].
  repeat split; assumption.
Qed.

(** A score of zero passes Gate 1 for no side. *)
Lemma sentiment_gate_zero (side : string) (sg : bool) :
  sentiment_gate side (S754_zero sg)
  = (false, "Blocked by sentiment " +:+ format_2f (S754_zero sg)).
Proof.
  unfold sentiment_gate.
  replace (PyFloat.gtb (S754_zero sg) two_tenths) with false by now destruct sg.
  replace (PyFloat.ltb (S754_zero sg) (PyFloat.neg two_tenths)) with false
    by now destruct sg.
  now rewrite !andb_false_r.
Qed.

(** The runs of [after_extract] on a score. *)
Lemma after_extract_scored (a : alert) (tr : list event) (s : float) :
  sentiment_score E (a_note a) = (tr, Return s) ->
  after_extract E a
  = if negb (fst (decision E a s)) then
      (tr ++ [log_line E a s], Return (skipped_response (snd (decision E a s))))
    else if negb (configured E) then
      (tr ++ [log_line E a s], Return not_configured_response)
    else
      (tr ++ log_line E a s
          :: trace (start_deal E (BOT_ID (cfg E)) (pair_of E a) (deal_message E a s)),
       resp ← result (start_deal E (BOT_ID (cfg E)) (pair_of E a) (deal_message E a s));
       mret (deal_started_response resp)).
Proof. intros H. unfold after_extract. now rewrite H. Qed.

Lemma after_extract_raised (a : alert) (tr : list event) (e : exn) :
  sentiment_score E (a_note a) = (tr, Raise e) ->
  after_extract E a = (tr, Raise e).
Proof. intros H. unfold after_extract. now rewrite H. Qed.

(** A run of the handler that does anything to the outside is a run on an
    authorized dict payload that [extract] takes apart. *)
Lemma webhook_effect (request : Request) :
  trace (webhook E request) <> [] ->
  exists d a,
    get_json request = Some (PDict d)
    /\ authorized E d = true
    /\ extract E d = Return a
    /\ webhook E request = after_extract E a.
Proof.
  destruct request as [[data|]]; [|intros H; now destruct H].
  destruct data as [| | | | | |d]; try (intros H; now destruct H).
  destruct (authorized E d) eqn:Ha.
  - rewrite webhook_authorized by exact Ha.
    destruct (extract E d) as [a|e] eqn:He; [|intros H; now destruct H].
    intros _. exists d, a. auto.
  - rewrite webhook_unauthorized by exact Ha. intros H; now destruct H.
Qed.

End RunFacts.

(* ===================================================================== *)
(** ** Further properties of [sentiment_score] *)
(* ===================================================================== *)

Section ScorerMore.

Variable E : Env.

(** X1. A text that is empty or made of white space only scores exactly
    0.0, and so does a value that Python holds false ([None], [False], 0,
    0.0, [[]], [{}]); in both cases the classifier is not called. *)
Theorem sentiment_score_blank (v : pyval) :
  truthy v = false \/ (exists t, v = PStr t /\ all_space t = true) ->
  sentiment_score E v = ([], Return PyFloat.zero).
Proof.
  intros [H|(t & -> & H)].
  - unfold sentiment_score. now rewrite H.
  - now rewrite sentiment_score_str, H.
Qed.

(** X2. A value that is no str and that Python holds true (a nonzero
    number, [True], a non-empty list or dict) has no [strip]: the scorer
    raises [AttributeError] and does not call the classifier. *)
Theorem sentiment_score_not_str (v : pyval) :
  truthy v = true -> (forall t, v <> PStr t) ->
  sentiment_score E v = ([], Raise AttributeError).
Proof.
  intros Ht Hs. unfold sentiment_score. rewrite Ht. cbn [negb].
  destruct v; try reflexivity. now destruct (Hs s).
Qed.

(** X3. There is no fallback for a classifier that fails: on a text that
    is not blank the scorer raises the classifier's exception after the one
    call, and the handler raises it too, with nothing logged, nothing posted
    and no response. *)
Theorem classifier_failure_propagates (t : string) (e : exn) :
  all_space t = false ->
  sent_clf E (PyStr.slice_to 500 t) = Raise e ->
  sentiment_score E (PStr t) = ([EClassify (PyStr.slice_to 500 t)], Raise e)
  /\ (forall d a,
        authorized E d = true -> extract E d = Return a -> a_note a = PStr t ->
        webhook E {| get_json := Some (PDict d) |}
        = ([EClassify (PyStr.slice_to 500 t)], Raise e)).
Proof.
  intros Hb He.
  assert (Hs : sentiment_score E (PStr t)
               = ([EClassify (PyStr.slice_to 500 t)], Raise e))
    by now rewrite sentiment_score_str, Hb, He.
  split; [exact Hs|].
  intros d a Ha Hx Hn. rewrite webhook_authorized, Hx by exact Ha.
  apply after_extract_raised. now rewrite Hn.
Qed.

End ScorerMore.

Lemma sentiment_score_blank_witness :
  sentiment_score (Doubles.env Doubles.cfg_live "positive" Doubles.f0_9) (PStr "  ")
  = ([], Return PyFloat.zero)
  /\ sentiment_score (Doubles.env Doubles.cfg_live "positive" Doubles.f0_9) (PList [])
     = ([], Return PyFloat.zero).
Proof.
  split; apply sentiment_score_blank.
  - right. exists "  ". split; reflexivity.
  - left. reflexivity.
Defined.

Lemma sentiment_score_not_str_witness :
  sentiment_score (Doubles.env Doubles.cfg_live "positive" Doubles.f0_9) (PInt 5)
  = ([], Raise AttributeError).
Proof. apply sentiment_score_not_str; [reflexivity | discriminate]. Defined.

Lemma classifier_failure_propagates_witness :
  webhook (Faults.env_clf_down Doubles.cfg_live)
    {| get_json := Some (PDict (Doubles.alert_buy "strong earnings beat" (PInt 75))) |}
  = ([EClassify "strong earnings beat"], Raise (ExternalError "classifier down")).
Proof.
  destruct (classifier_failure_propagates (Faults.env_clf_down Doubles.cfg_live)
              "strong earnings beat" (ExternalError "classifier down"))
    as [_ H]; [reflexivity | reflexivity |].
  apply (H (Doubles.alert_buy "strong earnings beat" (PInt 75))
           {| a_symbol := PStr "BTCUSDT"; a_exchange := "BINANCE"; a_side := "buy";
              a_note := PStr "strong earnings beat"; a_confidence := Doubles.f75;
              a_has_colon := false |}); reflexivity.
Defined.

(* ===================================================================== *)
(** ** Further properties of [start_deal] and of the dispatch *)
(* ===================================================================== *)

Section DispatchFacts.

Variable E : Env.

Lemma deal_started_response_inj (r1 r2 : pyval) :
  deal_started_response r1 = deal_started_response r2 -> r1 = r2.
Proof.
  intros H.
  apply (f_equal (fun r => match body r with
                           | PDict m => m !! "threecommas"
                           | _ => None
                           end)) in H.
  unfold deal_started_response, jsonify in H. cbn [body] in H.
  rewrite !lookup_insert_ne, !lookup_singleton_eq in H by discriminate.
  congruence.
Qed.

(** Every post of the handler, traced back: the payload was an authorized
    dict that [extract] took apart, the note was scored, both gates passed,
    the credentials were all set, the process was live and the bot id an
    integer; the post is the request of [start_deal] and comes right after
    the log line. *)
Lemma webhook_post_inv (request : Request) (rq : http_request) :
  In (EPost rq) (trace (webhook E request)) ->
  exists d a tr s n,
    get_json request = Some (PDict d)
    /\ authorized E d = true
    /\ extract E d = Return a
    /\ sentiment_score E (a_note a) = (tr, Return s)
    /\ fst (decision E a s) = true
    /\ configured E = true
    /\ DRY_RUN (cfg E) = false
    /\ int_of_str E (BOT_ID (cfg E)) = Some n
    /\ rq = deal_request E n (pair_of E a) (deal_message E a s)
    /\ webhook E request
       = (tr ++ log_line E a s
             :: trace (start_deal E (BOT_ID (cfg E)) (pair_of E a) (deal_message E a s)),
          resp ← result (start_deal E (BOT_ID (cfg E)) (pair_of E a) (deal_message E a s));
          mret (deal_started_response resp)).
Proof.
  intros Hin.
  destruct (webhook_dispatch E request) as (d & a & Hd & Ha & Hx & Hw);
    [left; now exists rq|].
  rewrite Hw in Hin |- *.
  destruct (after_extract_dispatch E a) as (tr & s & Hs & Hdec & Hc & Hrun);
    [left; now exists rq|].
  rewrite Hrun in Hin. cbn [trace fst] in Hin.
  apply in_app_or in Hin as [Hin|[Hin|Hin]]; [| discriminate |].
  - exfalso. apply (post_not_scored E (a_note a) rq). now rewrite Hs.
  - destruct (start_deal_post E _ _ _ _ Hin) as (n & Hn & Hlive & Hrq).
    exists d, a, tr, s, n. repeat split; assumption.
Qed.

(** Every "deal_started" answer of the handler, traced back likewise. *)
Lemma webhook_started_inv (request : Request) (tr0 : list event) (resp : pyval) :
  webhook E request = (tr0, Return (deal_started_response resp)) ->
  exists d a tr s,
    get_json request = Some (PDict d)
    /\ extract E d = Return a
    /\ sentiment_score E (a_note a) = (tr, Return s)
    /\ fst (decision E a s) = true
    /\ configured E = true
    /\ result (start_deal E (BOT_ID (cfg E)) (pair_of E a) (deal_message E a s))
       = Return resp.
Proof.
  intros Hrun.
  destruct (webhook_dispatch E request) as (d & a & Hd & Ha & Hx & Hw);
    [right; exists resp; now rewrite Hrun|].
  destruct (after_extract_dispatch E a) as (tr & s & Hs & Hdec & Hc & Hae);
    [right; exists resp; now rewrite <- Hw, Hrun|].
  exists d, a, tr, s. repeat split; try assumption.
  rewrite Hw, Hae in Hrun.
  destruct (result (start_deal E _ _ _)) as [resp'|e]; [|discriminate].
  cbn [mbind outcome_bind] in Hrun. unfold mret, outcome_ret in Hrun.
  f_equal. apply deal_started_response_inj. congruence.
Qed.

End DispatchFacts.

Section DispatchMore.

Variable E : Env.

Lemma configured_false_iff :
  configured E = false
  <-> API_KEY (cfg E) = "" \/ API_SECRET (cfg E) = "" \/ BOT_ID (cfg E) = "".
Proof.
  unfold configured.
  destruct (API_KEY (cfg E)), (API_SECRET (cfg E)), (BOT_ID (cfg E)); cbn;
    intuition congruence.
Qed.

Lemma slice_to_prefix (n : nat) (s : string) :
  String.prefix (PyStr.slice_to n s) s = true.
Proof.
  revert s; induction n as [|n IH]; intros [|c s]; cbn; try reflexivity.
  destruct (ascii_dec c c) as [_|H]; [apply IH | now destruct H].
Qed.

Lemma posted_app {A : Type} (tr1 tr2 : list event) (o : outcome A) :
  posted (tr1 ++ tr2, o) = posted (tr1, o) ++ posted (tr2, o).
Proof. unfold posted, trace. cbn [fst]. apply omap_app. Qed.

Lemma classified_app {A : Type} (tr1 tr2 : list event) (o : outcome A) :
  classified (tr1 ++ tr2, o) = classified (tr1, o) ++ classified (tr2, o).
Proof. unfold classified, trace. cbn [fst]. apply omap_app. Qed.

Lemma posted_classify {A : Type} (l : list string) (o : outcome A) :
  posted (map EClassify l, o) = [].
Proof. unfold posted, trace. cbn [fst]. induction l; cbn; auto. Qed.

Lemma classified_classify {A : Type} (l : list string) (o : outcome A) :
  classified (map EClassify l, o) = l.
Proof.
  unfold classified, trace. cbn [fst]. induction l as [|x l IH]; cbn; [auto|].
  now f_equal.
Qed.

(** The events of the scorer: at most one call of the classifier, and
    nothing else. *)
Lemma sentiment_score_events (v : pyval) :
  exists l, trace (sentiment_score E v) = map EClassify l /\ (length l <= 1)%nat.
Proof.
  destruct v as [|b|z|f|t|l|d];
    try solve [exists []; unfold sentiment_score; destruct (truthy _); cbn; auto].
  rewrite sentiment_score_str. destruct (all_space t).
  - exists []. cbn. auto.
  - exists [PyStr.slice_to 500 t]. cbn [trace fst map length]. auto.
Qed.

(** X4. [int(bot_id)] comes before the dry-run test: with a bot id that is
    no integer [start_deal] raises [ValueError] before it prints or posts
    anything, in dry-run mode too; the handler then never posts and never
    answers "deal_started", and an eligible request with all credentials
    set ends in [ValueError] right after its log line. *)
Theorem bot_id_not_integer :
  (forall bot_id pair message,
     int_of_str E bot_id = None ->
     start_deal E bot_id pair message = ([], Raise ValueError))
  /\ (int_of_str E (BOT_ID (cfg E)) = None ->
      (forall request,
         no_network (webhook E request)
         /\ forall tr resp,
              webhook E request <> (tr, Return (deal_started_response resp)))
      /\ (forall d a tr s,
            authorized E d = true -> extract E d = Return a ->
            sentiment_score E (a_note a) = (tr, Return s) ->
            fst (decision E a s) = true -> configured E = true ->
            webhook E {| get_json := Some (PDict d) |}
            = (tr ++ [log_line E a s], Raise ValueError))).
Proof.
  assert (Hsd : forall bot_id pair message,
             int_of_str E bot_id = None ->
             start_deal E bot_id pair message = ([], Raise ValueError))
    by (intros bot_id pair message H; now rewrite start_deal_run, H).
  split; [exact Hsd|]. intros Hbad. split.
  - intros request. split.
    + apply no_network_iff. intros rq Hin.
      destruct (webhook_post_inv E request rq Hin)
        as (d & a & tr & s & n & _ & _ & _ & _ & _ & _ & _ & Hn & _).
      congruence.
    + intros tr resp Hrun.
      destruct (webhook_started_inv E request tr resp Hrun)
        as (d & a & tr' & s & _ & _ & _ & _ & _ & Hres).
      rewrite (Hsd _ _ _ Hbad) in Hres. discriminate.
  - intros d a tr s Ha Hx Hs Hdec Hc.
    rewrite webhook_authorized, Hx by exact Ha.
    rewrite (after_extract_scored E a tr s Hs), Hdec, Hc. cbn [negb].
    now rewrite (Hsd _ _ _ Hbad).
Qed.

(** X5. A transport failure is not caught and not retried: when the one
    post of [start_deal] raises, [start_deal] raises the same exception with
    the post as its only effect, and so does the handler, whose last effect
    is that post. *)
Theorem transport_failure_propagates :
  (forall bot_id pair message rq e,
     In (EPost rq) (trace (start_deal E bot_id pair message)) ->
     http_post E rq = Raise e ->
     start_deal E bot_id pair message = ([EPost rq], Raise e))
  /\ (forall request rq e,
        In (EPost rq) (trace (webhook E request)) ->
        http_post E rq = Raise e ->
        result (webhook E request) = Raise e
        /\ exists tr, trace (webhook E request) = tr ++ [EPost rq]).
Proof.
  assert (Hsd : forall bot_id pair message rq e,
             In (EPost rq) (trace (start_deal E bot_id pair message)) ->
             http_post E rq = Raise e ->
             start_deal E bot_id pair message = ([EPost rq], Raise e)).
  { intros bot_id pair message rq e Hin He.
    destruct (start_deal_post E _ _ _ _ Hin) as (n & Hn & Hlive & ->).
    rewrite start_deal_run, Hn. cbv zeta. now rewrite Hlive, He. }
  split; [exact Hsd|].
  intros request rq e Hin He.
  destruct (webhook_post_inv E request rq Hin)
    as (d & a & tr & s & n & _ & _ & _ & _ & _ & _ & Hlive & Hn & Hrq & Hrun).
  assert (Hsd' : start_deal E (BOT_ID (cfg E)) (pair_of E a) (deal_message E a s)
                 = ([EPost rq], Raise e)).
  { apply Hsd; [|exact He]. rewrite start_deal_run, Hn. cbv zeta.
    rewrite Hlive, <- Hrq, He. now left. }
  rewrite Hrun, Hsd'. cbn [trace result fst snd mbind outcome_bind].
  split; [reflexivity|]. exists (tr ++ [log_line E a s]).
  now rewrite <- app_assoc.
Qed.

(** X6. One request costs at most one call of the classifier and at most
    one post to the trading API. *)
Theorem one_call_one_post (request : Request) :
  (length (classified (webhook E request)) <= 1)%nat
  /\ (length (posted (webhook E request)) <= 1)%nat.
Proof.
  destruct (trace (webhook E request)) as [|ev0 tr0] eqn:Htr.
  { unfold classified, posted. rewrite Htr. cbn. lia. }
  destruct (webhook_effect E request) as (d & a & _ & _ & _ & Hw);
    [now rewrite Htr|].
  clear Htr. rewrite Hw. unfold after_extract.
  destruct (sentiment_score_events (a_note a)) as (l & Hl & Hlen).
  destruct (sentiment_score E (a_note a)) as [tr [s|e]]; cbn [trace fst] in Hl;
    subst tr.
  - destruct (negb (fst (decision E a s)));
      [|destruct (negb (configured E))];
      rewrite ?classified_app, ?posted_app, ?classified_classify, ?posted_classify;
      try (cbn; rewrite ?app_nil_r; lia).
    cbv zeta.
    rewrite ?classified_app, ?posted_app, ?classified_classify, ?posted_classify.
    rewrite start_deal_run.
    destruct (int_of_str E (BOT_ID (cfg E))) as [n|]; cbv zeta;
      [destruct (DRY_RUN (cfg E)); [|destruct (http_post E _)]|];
      cbn; rewrite ?app_nil_r; lia.
  - rewrite classified_classify, posted_classify. cbn. lia.
Qed.

End DispatchMore.

Section HandlerMore.

Variable E : Env.

(** X7. Every request that [start_deal] posts goes to the start-deal
    endpoint with the API key, the HMAC of the empty query under the API
    secret and the JSON content type as its headers, no query parameters
    and a timeout of 20; its body holds the bot id as an integer, the pair
    as given and the message cut to its first 240 characters.  The
    signature therefore does not depend on the bot id, the pair or the
    message. *)
Theorem posted_request_shape
  (bot_id : string) (pair : pyval) (message : string) (rq : http_request) :
  In (EPost rq) (trace (start_deal E bot_id pair message)) ->
  rq_url rq = "https://api.3commas.io/public/api/ver1/bots/start_deal"
  /\ rq_headers rq
     = {[ "APIKEY" := API_KEY (cfg E);
          "Signature" := hmac_sha256_hex E (API_SECRET (cfg E)) "";
          "Content-Type" := "application/json" ]}
  /\ rq_params rq = ∅
  /\ rq_timeout rq = 20
  /\ exists n m,
       int_of_str E bot_id = Some n
       /\ rq_json rq = PDict {[ "bot_id" := PInt n; "pair" := pair; "message" := PStr m ]}
       /\ m = PyStr.slice_to 240 message
       /\ (String.length m <= 240)%nat
       /\ String.prefix m message = true.
Proof.
  intros Hin. destruct (start_deal_post E _ _ _ _ Hin) as (n & Hn & _ & ->).
  repeat split. exists n, (PyStr.slice_to 240 message).
  repeat split; [exact Hn | apply slice_to_length | apply slice_to_prefix].
Qed.

(** The responses of the handler, by kind. *)
Lemma webhook_response_kinds (request : Request) (tr : list event) (r : Response) :
  webhook E request = (tr, Return r) ->
  (get_json request = None /\ r = invalid_json_response /\ tr = [])
  \/ (r = bad_token_response /\ tr = []
      /\ exists d, get_json request = Some (PDict d) /\ authorized E d = false)
  \/ ((exists reason, r = skipped_response reason)
      /\ no_network (webhook E request))
  \/ (r = not_configured_response /\ configured E = false
      /\ no_network (webhook E request))
  \/ ((exists resp, r = deal_started_response resp) /\ configured E = true).
Proof.
  destruct request as [[data|]].
  2:{ rewrite webhook_invalid_json. intros [= <- <-]. left. auto. }
  destruct data as [| | | | | |d]; try discriminate.
  destruct (authorized E d) eqn:Ha.
  2:{ rewrite webhook_unauthorized by exact Ha. intros [= <- <-].
      right; left. repeat split. now exists d. }
  intros Hrun. pose proof Hrun as Hrun'.
  rewrite webhook_authorized in Hrun' by exact Ha.
  destruct (extract E d) as [a|e] eqn:Hx; [|discriminate].
  destruct (sentiment_score E (a_note a)) as [tr' [s|e]] eqn:Hs;
    [|now rewrite (after_extract_raised E a tr' e Hs) in Hrun'].
  rewrite (after_extract_scored E a tr' s Hs) in Hrun'.
  assert (Hquiet : forall l, tr = tr' ++ [EPrint l] ->
                          no_network (webhook E {| get_json := Some (PDict d) |})).
  { intros l ->. rewrite Hrun. apply no_network_iff. intros rq Hin.
    cbn [trace fst] in Hin. apply in_app_or in Hin as [Hin|[Hin|[]]];
      [|discriminate].
    apply (post_not_scored E (a_note a) rq). now rewrite Hs. }
  destruct (fst (decision E a s)) eqn:Hd; cbn [negb] in Hrun'.
  - destruct (configured E) eqn:Hc; cbn [negb] in Hrun'.
    + destruct (result (start_deal E _ _ _)) as [resp|e]; [|discriminate].
      injection Hrun' as _ <-. do 4 right. split; [now exists resp | reflexivity].
    + injection Hrun' as <- <-. do 3 right; left.
      repeat split. now apply (Hquiet _ eq_refl).
  - injection Hrun' as <- <-. do 2 right; left.
    split; [now eexists | now apply (Hquiet _ eq_refl)].
Qed.

(** X8. The responses of the handler are of five kinds and no other.  A
    body that does not parse is answered 400 "invalid JSON", and only such a
    body is; a dict payload that fails the token check is answered 401 "bad
    token", and only such a payload is; the others are 200 "skipped", 500
    "not configured", only when a credential is missing, and 200
    "deal_started", only when all credentials are set.  The first four come
    with no post to the trading API, and the first two with no effect at
    all. *)
Theorem webhook_responses (request : Request) :
  (get_json request = None ->
   webhook E request
   = ([], Return {| body := jsonify {[ "ok" := PBool false;
                                       "error" := PStr "invalid JSON" ]};
                    status := 400 |}))
  /\ (forall d,
        get_json request = Some (PDict d) -> authorized E d = false ->
        webhook E request
        = ([], Return {| body := jsonify {[ "ok" := PBool false;
                                            "error" := PStr "bad token" ]};
                         status := 401 |}))
  /\ (forall tr r,
        webhook E request = (tr, Return r) ->
        (status r = 400 /\ get_json request = None
         /\ r = invalid_json_response /\ tr = [])
        \/ (status r = 401 /\ r = bad_token_response /\ tr = []
            /\ exists d, get_json request = Some (PDict d) /\ authorized E d = false)
        \/ (status r = 200 /\ (exists reason, r = skipped_response reason)
            /\ no_network (webhook E request))
        \/ (status r = 500 /\ r = not_configured_response /\ configured E = false
            /\ no_network (webhook E request))
        \/ (status r = 200 /\ (exists resp, r = deal_started_response resp)
            /\ configured E = true)).
Proof.
  split; [|split].
  - destruct request as [j]. cbn [get_json]. intros ->. reflexivity.
  - destruct request as [j]. cbn [get_json]. intros d -> Ha.
    now rewrite webhook_unauthorized.
  - intros tr r Hrun.
    destruct (webhook_response_kinds request tr r Hrun)
      as [(Hj & -> & ->) | [(-> & -> & Hd) | [([reason ->] & Hq)
         | [(-> & Hc & Hq) | ([resp ->] & Hc)]]]].
    + left. auto.
    + right; left. auto.
    + do 2 right; left. split; [reflexivity|]. split; [now exists reason | exact Hq].
    + do 3 right; left. auto.
    + do 4 right. split; [reflexivity|]. split; [now exists resp | exact Hc].
Qed.

(** X9. A body that is valid JSON but no object (a list, a string, a
    number, a boolean, null) is not refused with the 400 of invalid JSON:
    [data.get] raises [AttributeError] before the token is even looked at,
    whatever the configuration. *)
Theorem webhook_payload_not_object (request : Request) (data : pyval) :
  get_json request = Some data ->
  (forall d, data <> PDict d) ->
  webhook E request = ([], Raise AttributeError).
Proof.
  destruct request as [j]. cbn [get_json]. intros -> H.
  now apply webhook_not_dict.
Qed.

(** X10. With the API key, the API secret or the bot id empty, the handler
    never posts to the trading API and never answers "deal_started": a
    request that passes both gates is logged and answered 500 "not
    configured". *)
Theorem missing_credentials_never_dispatch :
  API_KEY (cfg E) = "" \/ API_SECRET (cfg E) = "" \/ BOT_ID (cfg E) = "" ->
  (forall request,
     no_network (webhook E request)
     /\ forall tr resp, webhook E request <> (tr, Return (deal_started_response resp)))
  /\ (forall d a tr s,
        authorized E d = true -> extract E d = Return a ->
        sentiment_score E (a_note a) = (tr, Return s) ->
        fst (decision E a s) = true ->
        webhook E {| get_json := Some (PDict d) |}
        = (tr ++ [log_line E a s], Return not_configured_response)).
Proof.
  intros Hc%configured_false_iff. split.
  - intros request. split.
    + apply no_network_iff. intros rq Hin.
      destruct (webhook_post_inv E request rq Hin)
        as (d & a & tr & s & n & _ & _ & _ & _ & _ & Hc' & _).
      congruence.
    + intros tr resp Hrun.
      destruct (webhook_started_inv E request tr resp Hrun)
        as (d & a & tr' & s & _ & _ & _ & _ & Hc' & _).
      congruence.
  - intros d a tr s Ha Hx Hs Hdec.
    rewrite webhook_authorized, Hx by exact Ha.
    now rewrite (after_extract_scored E a tr s Hs), Hdec, Hc.
Qed.

(** X11. In dry-run mode the handler never posts to the trading API,
    whatever the request; when it answers "deal_started", the [threecommas]
    field is the marker [{status: "dry_run"}]. *)
Theorem dry_run_never_posts :
  DRY_RUN (cfg E) = true ->
  forall request,
    no_network (webhook E request)
    /\ (forall tr resp,
          webhook E request = (tr, Return (deal_started_response resp)) ->
          resp = PDict {[ "status" := PStr "dry_run" ]}).
Proof.
  intros Hdry request. split.
  - apply no_network_iff. intros rq Hin.
    destruct (webhook_post_inv E request rq Hin)
      as (d & a & tr & s & n & _ & _ & _ & _ & _ & _ & Hlive & _).
    congruence.
  - intros tr resp Hrun.
    destruct (webhook_started_inv E request tr resp Hrun)
      as (d & a & tr' & s & _ & _ & _ & _ & _ & Hres).
    rewrite start_deal_run in Hres.
    destruct (int_of_str E (BOT_ID (cfg E))); [|discriminate].
    cbv zeta in Hres. rewrite Hdry in Hres. cbn [result snd] in Hres.
    injection Hres as <-. reflexivity.
Qed.

(** X12. The classifier is only called for a dict payload that passed the
    token check and whose fields were all taken apart, on a note that is a
    str and not blank, and on the first 500 characters of that note. *)
Theorem classifier_called_after_checks (request : Request) (input : string) :
  In (EClassify input) (trace (webhook E request)) ->
  exists d a t,
    get_json request = Some (PDict d)
    /\ authorized E d = true
    /\ extract E d = Return a
    /\ a_note a = PStr t
    /\ all_space t = false
    /\ input = PyStr.slice_to 500 t.
Proof.
  intros Hin.
  destruct (webhook_effect E request) as (d & a & Hd & Ha & Hx & Hw).
  { intros H. rewrite H in Hin. destruct Hin. }
  assert (Hsc : In (EClassify input) (trace (sentiment_score E (a_note a)))).
  { rewrite Hw in Hin. unfold after_extract in Hin.
    destruct (sentiment_score E (a_note a)) as [tr [s|e]]; [|exact Hin].
    cbn [trace fst].
    assert (Hsplit : In (EClassify input) tr
                     \/ exists tr', In (EClassify input)
                          (log_line E a s :: tr')
                        /\ (tr' = [] \/ tr' = trace (start_deal E (BOT_ID (cfg E))
                                                    (pair_of E a) (deal_message E a s)))).
    { destruct (negb (fst (decision E a s)));
        [|destruct (negb (configured E))]; cbn [trace fst] in Hin;
        apply in_app_or in Hin as [Hin|Hin]; eauto. }
    destruct Hsplit as [H|(tr' & [H|H] & Htr')]; [exact H | discriminate |].
    exfalso. destruct Htr' as [-> | ->]; [destruct H|].
    rewrite start_deal_run in H.
    destruct (int_of_str E (BOT_ID (cfg E))); cbv zeta in H;
      [destruct (DRY_RUN (cfg E)); [|destruct (http_post E _)]|];
      cbn in H; intuition discriminate. }
  destruct (a_note a) as [| | | |t| |] eqn:Hn;
    try (unfold sentiment_score in Hsc; destruct (truthy _); cbn in Hsc;
         now destruct Hsc).
  rewrite sentiment_score_str in Hsc.
  destruct (all_space t) eqn:Hb; cbn [trace fst In] in Hsc; [destruct Hsc|].
  destruct Hsc as [Hsc|[]].
  exists d, a, t. repeat split; try assumption. congruence.
Qed.

End HandlerMore.

(* ===================================================================== *)
(** ** Further properties of the gates *)
(* ===================================================================== *)

Section GateOrder.

(** The order of the floats is transitive where it is defined. *)
Lemma ltb_leb_trans (a b c : float) :
  PyFloat.ltb a b = true -> PyFloat.leb b c = true -> PyFloat.ltb a c = true.
Proof.
  unfold PyFloat.ltb, PyFloat.leb, SFltb, SFleb.
  destruct a as [sa|sa| |sa ma ea], b as [sb|sb| |sb mb eb], c as [sc|sc| |sc mc ec];
    cbn; try discriminate; try reflexivity;
    try (destruct sa; try discriminate; try reflexivity);
    try (destruct sb; try discriminate; try reflexivity);
    try (destruct sc; try discriminate; try reflexivity).
  all: change (PosDef.Pos.compare_cont Eq ma mb) with (Pos.compare ma mb);
       change (PosDef.Pos.compare_cont Eq mb mc) with (Pos.compare mb mc);
       change (PosDef.Pos.compare_cont Eq ma mc) with (Pos.compare ma mc);
       destruct (Z.compare_spec ea eb), (Z.compare_spec eb ec),
                (Z.compare_spec ea ec); try discriminate; try reflexivity;
         try lia;
       destruct (Pos.compare_spec ma mb), (Pos.compare_spec mb mc),
                (Pos.compare_spec ma mc); cbn; try discriminate; try reflexivity;
         try lia.
Qed.

Lemma leb_leb_trans_ltb (a b c : float) :
  PyFloat.leb a b = true -> PyFloat.ltb b c = true -> PyFloat.ltb a c = true.
Proof.
  intros Hab Hbc.
  rewrite <- (leb_neg b a) in Hab.
  assert (H : PyFloat.ltb (PyFloat.neg c) (PyFloat.neg a) = true).
  { apply (ltb_leb_trans _ (PyFloat.neg b)); [|exact Hab].
    unfold PyFloat.ltb, PyFloat.neg, SFltb in *. now rewrite SFcompare_opp. }
  unfold PyFloat.ltb, PyFloat.neg, SFltb in *. now rewrite SFcompare_opp in H.
Qed.

(** X19. The alignment gate respects the order of the scores and the
    symmetry of the two sides: a buy that passes at a score passes at every
    higher score, a sell that passes at a score passes at every lower one;
    a sell passes at [-s] exactly when a buy passes at [s]; and no score
    passes for both sides. *)
Theorem sentiment_gate_order (s s' : float) :
  (fst (sentiment_gate "buy" s) = true -> PyFloat.leb s s' = true ->
   fst (sentiment_gate "buy" s') = true)
  /\ (fst (sentiment_gate "sell" s) = true -> PyFloat.leb s' s = true ->
      fst (sentiment_gate "sell" s') = true)
  /\ fst (sentiment_gate "sell" (PyFloat.neg s)) = fst (sentiment_gate "buy" s)
  /\ (fst (sentiment_gate "buy" s) = true -> fst (sentiment_gate "sell" s) = false).
Proof.
  assert (Hbuy : forall x, fst (sentiment_gate "buy" x) = PyFloat.gtb x two_tenths).
  { intros x. unfold sentiment_gate. cbn [String.eqb Ascii.eqb Bool.eqb andb].
    destruct (PyFloat.gtb x two_tenths); cbn; [reflexivity|].
    now destruct (PyFloat.ltb x (PyFloat.neg two_tenths)). }
  assert (Hsell : forall x, fst (sentiment_gate "sell" x)
                            = PyFloat.ltb x (PyFloat.neg two_tenths)).
  { intros x. unfold sentiment_gate. cbn [String.eqb Ascii.eqb Bool.eqb andb].
    now destruct (PyFloat.ltb x (PyFloat.neg two_tenths)). }
  rewrite !Hbuy, !Hsell. unfold PyFloat.gtb. repeat split.
  - intros H1 H2. exact (ltb_leb_trans _ _ _ H1 H2).
  - intros H1 H2. exact (leb_leb_trans_ltb _ _ _ H2 H1).
  - unfold PyFloat.ltb, PyFloat.neg, SFltb. now rewrite SFcompare_opp.
  - intros H.
    destruct (PyFloat.ltb s (PyFloat.neg two_tenths)) eqn:H'; [|reflexivity].
    assert (Hc : PyFloat.ltb two_tenths (PyFloat.neg two_tenths) = true).
    { apply (ltb_leb_trans _ s); [exact H|].
      unfold PyFloat.ltb, PyFloat.leb, SFltb, SFleb in *.
      now destruct (SFcompare s (PyFloat.neg two_tenths)) as [[]|]. }
    discriminate Hc.
Qed.

End GateOrder.

Lemma sentiment_gate_order_witness :
  fst (sentiment_gate "buy" Doubles.f0_85) = true
  /\ fst (sentiment_gate "sell" Doubles.f0_85) = false.
Proof.
  destruct (sentiment_gate_order Doubles.f0_21 Doubles.f0_85) as (Hup & _).
  destruct (sentiment_gate_order Doubles.f0_85 Doubles.f0_85) as (_ & _ & _ & Hex).
  assert (H : fst (sentiment_gate "buy" Doubles.f0_85) = true)
    by (apply Hup; reflexivity).
  split; [exact H | exact (Hex H)].
Defined.

(* ===================================================================== *)
(** ** Further properties of the handler: the fields of the alert *)
(* ===================================================================== *)

Section AlertFields.

Variable E : Env.

Lemma prefix_app (s t : string) : String.prefix s (s +:+ t) = true.
Proof.
  induction s as [|c s IH]; simpl; [now destruct t|].
  destruct (ascii_dec c c) as [_|H]; [exact IH | now destruct H].
Qed.

Lemma prefix_refl (s : string) : String.prefix s s = true.
Proof.
  induction s as [|c s IH]; cbn; [reflexivity|].
  destruct (ascii_dec c c) as [_|H]; [exact IH | now destruct H].
Qed.

(** The token check does not look at the other fields. *)
Lemma authorized_insert (d : gmap string pyval) (k : string) (v : pyval) :
  k <> "token" -> authorized E (<[k := v]> d) = authorized E d.
Proof. intros H. unfold authorized. now rewrite lookup_insert_ne. Qed.

Lemma webhook_same_extract (d1 d2 : gmap string pyval) :
  authorized E d1 = authorized E d2 ->
  extract E d1 = extract E d2 ->
  webhook E {| get_json := Some (PDict d1) |}
  = webhook E {| get_json := Some (PDict d2) |}.
Proof.
  intros Ha Hx. destruct (authorized E d2) eqn:H2.
  - rewrite !webhook_authorized by assumption. now rewrite Hx.
  - now rewrite !webhook_unauthorized.
Qed.

(** Gate 2 leaves a decision alone when the confidence is zero or at
    least 60. *)
Lemma confidence_gate_keeps (c : float) (g : bool * string) :
  PyFloat.truthy c = false \/ PyFloat.geb c PyFloat.sixty = true ->
  confidence_gate E c g = g.
Proof.
  unfold confidence_gate, PyFloat.geb. intros [-> | H]; [reflexivity|].
  now rewrite (leb_not_gtb _ _ H), andb_false_r.
Qed.

(** X13. The pair that reaches the trading API: for a [symbol] that is a
    str, the posted body carries the symbol itself when it has a colon, and
    otherwise [exchange.upper()], a colon and the symbol, where the exchange
    is the str of the payload, or "BINANCE" when the payload has none. *)
Theorem posted_pair (d : gmap string pyval) (sym : string) (rq : http_request) :
  d !! "symbol" = Some (PStr sym) ->
  In (EPost rq) (trace (webhook E {| get_json := Some (PDict d) |})) ->
  exists exchange body,
    (d !! "exchange" = Some (PStr exchange)
     \/ (d !! "exchange" = None /\ exchange = "BINANCE"))
    /\ rq_json rq = PDict body
    /\ body !! "pair"
       = Some (PStr (if PyStr.contains ":" sym then sym
                     else str_upper E exchange +:+ ":" +:+ sym)).
Proof.
  intros Hsym Hin.
  destruct (webhook_post_inv E _ rq Hin)
    as (d' & a & tr & s & n & Hd & _ & Hx & _ & _ & _ & _ & _ & Hrq & _).
  cbn [get_json] in Hd. injection Hd as <-.
  destruct (extract_inv E d a Hx) as (Hs & Hex & _ & _ & _ & Hcolon).
  rewrite Hsym in Hs. rewrite Hs in Hcolon. cbn [py_in] in Hcolon.
  injection Hcolon as Hcolon.
  assert (Hexch : exists exchange,
             (d !! "exchange" = Some (PStr exchange)
              \/ (d !! "exchange" = None /\ exchange = "BINANCE"))
             /\ a_exchange a = str_upper E exchange).
  { destruct (d !! "exchange") as [v|].
    - destruct v as [| | | |x| |]; try discriminate.
      exists x. split; [now left|]. cbn [py_upper] in Hex. congruence.
    - exists "BINANCE". split; [now right|]. cbn [py_upper] in Hex. congruence. }
  destruct Hexch as (exchange & Hwhich & Hup).
  exists exchange, {[ "bot_id" := PInt n; "pair" := pair_of E a;
                      "message" := PStr (PyStr.slice_to 240 (deal_message E a s)) ]}.
  split; [exact Hwhich|]. split; [now rewrite Hrq|].
  rewrite lookup_insert_ne, lookup_insert_eq by discriminate.
  unfold pair_of. rewrite <- Hcolon, Hs, Hup.
  now destruct (PyStr.contains ":" sym).
Qed.

(** X14. The handler reads [side] without regard to case, and [exchange]
    likewise: two payloads that differ only in the case of these fields get
    the same run. *)
Theorem side_and_exchange_ignore_case (d : gmap string pyval) (x y : string) :
  (PyStr.lower x = PyStr.lower y ->
   webhook E {| get_json := Some (PDict (<["side" := PStr x]> d)) |}
   = webhook E {| get_json := Some (PDict (<["side" := PStr y]> d)) |})
  /\ (str_upper E x = str_upper E y ->
      webhook E {| get_json := Some (PDict (<["exchange" := PStr x]> d)) |}
      = webhook E {| get_json := Some (PDict (<["exchange" := PStr y]> d)) |}).
Proof.
  split; intros H; apply webhook_same_extract;
    try (rewrite !authorized_insert by discriminate; reflexivity);
    unfold extract; cbn [py_get];
    rewrite ?lookup_insert_eq, ?lookup_insert_ne by discriminate;
    cbn [py_lower py_upper mbind outcome_bind]; now rewrite H.
Qed.

(** X15. An alert without a note, or with a note that is empty or white
    space only, never trades: whatever its side and confidence, it is
    answered 200 "skipped" with a reason that starts with "Blocked by
    sentiment 0.00", after the log line alone: the classifier is not called
    and nothing is posted. *)
Theorem blank_note_is_skipped (d : gmap string pyval) (a : alert) :
  authorized E d = true ->
  extract E d = Return a ->
  d !! "note" = None \/ (exists t, d !! "note" = Some (PStr t) /\ all_space t = true) ->
  exists reason,
    webhook E {| get_json := Some (PDict d) |}
    = ([log_line E a PyFloat.zero], Return (skipped_response reason))
    /\ String.prefix "Blocked by sentiment 0.00" reason = true.
Proof.
  intros Ha Hx Hnote.
  destruct (extract_inv E d a Hx) as (_ & _ & _ & Hn & _).
  assert (Hs : sentiment_score E (a_note a) = ([], Return PyFloat.zero)).
  { rewrite Hn. destruct Hnote as [-> | (t & -> & Hb)].
    - now rewrite sentiment_score_str.
    - now rewrite sentiment_score_str, Hb. }
  assert (Hd : decision E a PyFloat.zero
               = confidence_gate E (a_confidence a) (false, "Blocked by sentiment 0.00"))
    by (unfold decision, PyFloat.zero; now rewrite sentiment_gate_zero).
  assert (Hf : fst (decision E a PyFloat.zero) = false).
  { rewrite Hd. unfold confidence_gate.
    now destruct (PyFloat.truthy _ && PyFloat.ltb _ _). }
  exists (snd (decision E a PyFloat.zero)). split.
  - rewrite webhook_authorized, Hx by exact Ha.
    now rewrite (after_extract_scored E a [] PyFloat.zero Hs), Hf.
  - rewrite Hd. unfold confidence_gate.
    destruct (PyFloat.truthy _ && PyFloat.ltb _ _); cbn [snd];
      [apply (prefix_app "Blocked by sentiment 0.00") | reflexivity].
Qed.

(** X16. A scored request whose confidence is nonzero and below 60 is
    answered 200 "skipped" whatever the sentiment gate said; the reason is
    the one of the sentiment gate followed by the low-confidence note, and
    nothing is posted. *)
Theorem low_confidence_is_skipped
  (d : gmap string pyval) (a : alert) (tr : list event) (s : float) :
  authorized E d = true ->
  extract E d = Return a ->
  sentiment_score E (a_note a) = (tr, Return s) ->
  PyFloat.truthy (a_confidence a) = true ->
  PyFloat.ltb (a_confidence a) PyFloat.sixty = true ->
  webhook E {| get_json := Some (PDict d) |}
  = (tr ++ [log_line E a s],
     Return (skipped_response
               (snd (sentiment_gate (a_side a) s) +:+ " | low TV confidence "
                +:+ py_repr E (PFloat (a_confidence a)) +:+ "%"))).
Proof.
  intros Ha Hx Hs Ht Hlt.
  rewrite webhook_authorized, Hx by exact Ha.
  rewrite (after_extract_scored E a tr s Hs).
  assert (Hd : decision E a s
               = (false, snd (sentiment_gate (a_side a) s) +:+ " | low TV confidence "
                         +:+ py_repr E (PFloat (a_confidence a)) +:+ "%"))
    by (unfold decision, confidence_gate; now rewrite Ht, Hlt).
  now rewrite Hd.
Qed.

(** X17. What is enough for a deal: an authorized payload that is taken
    apart and scored, passes the sentiment gate, has a confidence of zero or
    of at least 60, with all credentials set, the process live, the bot id
    an integer and the trading API answering.  The handler then calls the
    classifier, logs the decision, posts the one request, prints the answer
    and returns 200 "deal_started" with that answer, in this order. *)
Theorem eligible_request_is_dispatched
  (d : gmap string pyval) (a : alert) (tr : list event) (s : float)
  (n : Z) (r : http_response) :
  authorized E d = true ->
  extract E d = Return a ->
  sentiment_score E (a_note a) = (tr, Return s) ->
  fst (sentiment_gate (a_side a) s) = true ->
  PyFloat.truthy (a_confidence a) = false
    \/ PyFloat.geb (a_confidence a) PyFloat.sixty = true ->
  API_KEY (cfg E) <> "" -> API_SECRET (cfg E) <> "" -> BOT_ID (cfg E) <> "" ->
  DRY_RUN (cfg E) = false ->
  int_of_str E (BOT_ID (cfg E)) = Some n ->
  http_post E (deal_request E n (pair_of E a) (deal_message E a s)) = Return r ->
  webhook E {| get_json := Some (PDict d) |}
  = (tr ++ [log_line E a s;
            EPost (deal_request E n (pair_of E a) (deal_message E a s));
            EPrint ("3Commas response: " +:+ py_str E (response_data r))],
     Return (deal_started_response (response_data r))).
Proof.
  intros Ha Hx Hs Hg Hc Hk Hsec Hbot Hlive Hn Hr.
  rewrite webhook_authorized, Hx by exact Ha.
  rewrite (after_extract_scored E a tr s Hs).
  assert (Hd : fst (decision E a s) = true)
    by (unfold decision; now rewrite confidence_gate_keeps).
  assert (Hcf : configured E = true).
  { destruct (configured E) eqn:Hcf; [reflexivity|].
    apply configured_false_iff in Hcf. intuition. }
  rewrite Hd, Hcf. cbn [negb].
  rewrite start_deal_run, Hn. cbv zeta. rewrite Hlive, Hr. reflexivity.
Qed.

End AlertFields.

(** X18. How the process reads its environment: dry-run is on exactly when
    [DRY_RUN] is set to "true" in any case, so "1" or "yes" leave the
    process live; a process started without a [TV_WEBHOOK_TOKEN] lets every
    dict payload through the token check; and a process started without one
    of the three 3Commas variables never posts to the trading API. *)
Theorem load_config_reads_environment (environ : gmap string string) :
  (DRY_RUN (load_config environ) = true
   <-> exists v, environ !! "DRY_RUN" = Some v /\ PyStr.lower v = "true")
  /\ (forall E d,
        cfg E = load_config environ -> environ !! "TV_WEBHOOK_TOKEN" = None ->
        authorized E d = true)
  /\ (forall E request,
        cfg E = load_config environ ->
        environ !! "THREECOMMAS_API_KEY" = None
        \/ environ !! "THREECOMMAS_API_SECRET" = None
        \/ environ !! "THREECOMMAS_BOT_ID" = None ->
        no_network (webhook E request)).
Proof.
  split; [|split].
  - unfold load_config, getenv. cbn [DRY_RUN]. rewrite String.eqb_eq.
    destruct (environ !! "DRY_RUN") as [v|].
    + split; [intros H; now exists v | now intros (v' & [= <-] & H)].
    + split; [discriminate | now intros (v' & [=] & _)].
  - intros E d Hcfg Htok. apply authorized_iff. left.
    rewrite Hcfg. unfold load_config, getenv. cbn [TV_WEBHOOK_TOKEN].
    now rewrite Htok.
  - intros E request Hcfg Hmiss. apply no_network_iff. intros rq Hin.
    destruct (webhook_post_inv E request rq Hin)
      as (d & a & tr & s & n & _ & _ & _ & _ & _ & Hc & _).
    assert (Hf : configured E = false); [|congruence].
    apply configured_false_iff. rewrite Hcfg. unfold load_config, getenv.
    cbn [API_KEY API_SECRET BOT_ID].
    destruct Hmiss as [-> | [-> | ->]]; auto.
Qed.

(* ===================================================================== *)
(** ** The gates, in the handler *)
(* ===================================================================== *)

Section GatesInHandler.

Variable E : Env.

(** The three answers of the branch on lines 122-130 are told apart by
    their status and their action. *)
Lemma skipped_is_no_dispatch (reason : string) (x : outcome pyval) :
  Return (skipped_response reason) <> Return not_configured_response
  /\ Return (skipped_response reason)
     <> (resp ← x; mret (deal_started_response resp)).
Proof.
  split; intros H.
  - apply (f_equal (fun o => match o with
                             | Return r => Some (status r)
                             | Raise _ => None
                             end)) in H.
    discriminate H.
  - destruct x as [resp|e]; [|discriminate H].
    apply (f_equal (fun o => match o with
                             | Return r => match body r with
                                           | PDict m => m !! "action"
                                           | _ => None
                                           end
                             | Raise _ => None
                             end)) in H.
    cbn [mbind outcome_bind mret outcome_ret] in H.
    unfold skipped_response, deal_started_response, jsonify in H.
    cbn [body] in H.
    rewrite !(lookup_insert_ne _ "ok" "action"), !lookup_insert_eq in H
      by discriminate.
    discriminate H.
Qed.

(** A request that is scored and on which Gate 2 does nothing: the
    handler skips it with Gate 1's reason when Gate 1 blocks, and does not
    skip it when Gate 1 passes. *)
Lemma gate_one_decides
  (d : gmap string pyval) (a : alert) (tr : list event) (s : float) :
  authorized E d = true ->
  extract E d = Return a ->
  sentiment_score E (a_note a) = (tr, Return s) ->
  PyFloat.truthy (a_confidence a) = false
    \/ PyFloat.geb (a_confidence a) PyFloat.sixty = true ->
  (fst (sentiment_gate (a_side a) s) = false ->
   webhook E {| get_json := Some (PDict d) |}
   = (tr ++ [log_line E a s],
      Return (skipped_response (snd (sentiment_gate (a_side a) s)))))
  /\ (fst (sentiment_gate (a_side a) s) = true ->
      forall tr' reason,
        webhook E {| get_json := Some (PDict d) |}
        <> (tr', Return (skipped_response reason))).
Proof.
  intros Ha Hx Hs Hoff.
  rewrite webhook_authorized, Hx by exact Ha.
  rewrite (after_extract_scored E a tr s Hs).
  assert (Hd : decision E a s = sentiment_gate (a_side a) s)
    by (unfold decision; now apply confidence_gate_keeps).
  rewrite Hd. split; intros Hg; rewrite Hg; cbn [negb]; [reflexivity|].
  intros tr' reason.
  destruct (skipped_is_no_dispatch reason
              (result (start_deal E (BOT_ID (cfg E)) (pair_of E a) (deal_message E a s))))
    as [H500 Hdeal].
  destruct (negb (configured E)); intros H;
    apply (f_equal snd) in H; cbn [snd] in H; symmetry in H; contradiction.
Qed.

(** C3. The directional-alignment gate marks a request trade-eligible if and
    only if side is "buy" and the sentiment is strictly above 0.2, or side
    is "sell" and the sentiment is strictly below -0.2, the comparisons
    being those of IEEE binary64 against the float [0.2]
    (7205759403792794 * 2^-55).  At the boundaries (0.2 for a buy, -0.2 for
    a sell) and for every other side the request is not eligible, and the
    reason of a blocked request records the sentiment value, formatted with
    two decimals: 0.21 passes a buy and 0.20 does not, -0.21 passes a sell
    and -0.20 does not.  In the handler, a scored request on which the
    confidence gate does nothing is answered "skipped" with that reason
    when the gate blocks it, and is not skipped when the gate passes it. *)
Theorem sentiment_gate_eligible_iff (side : string) (s : float) :
  (fst (sentiment_gate side s) = true <->
     (side = "buy" /\ PyFloat.gtb s two_tenths = true) \/
     (side = "sell" /\ PyFloat.ltb s (PyFloat.neg two_tenths) = true))
  /\ (fst (sentiment_gate side s) = false ->
      snd (sentiment_gate side s) = "Blocked by sentiment " +:+ format_2f s)
  /\ fst (sentiment_gate "buy" two_tenths) = false
  /\ fst (sentiment_gate "sell" (PyFloat.neg two_tenths)) = false
  /\ (side <> "buy" -> side <> "sell" -> fst (sentiment_gate side s) = false)
  /\ (fst (sentiment_gate side s) = true <->
        (side = "buy"
         /\ SFltb (S754_finite false 7205759403792794 (-55)) s = true)
        \/ (side = "sell"
            /\ SFltb s (S754_finite true 7205759403792794 (-55)) = true))
  /\ sentiment_gate "buy" (S754_finite false 7566047373982433 (-55))
     = (true, "BUY allowed (sentiment 0.21)")
  /\ sentiment_gate "buy" (S754_finite false 7205759403792794 (-55))
     = (false, "Blocked by sentiment 0.20")
  /\ sentiment_gate "sell" (S754_finite true 7566047373982433 (-55))
     = (true, "SELL allowed (sentiment -0.21)")
  /\ sentiment_gate "sell" (S754_finite true 7205759403792794 (-55))
     = (false, "Blocked by sentiment -0.20")
  /\ (forall d a tr,
        authorized E d = true ->
        extract E d = Return a ->
        sentiment_score E (a_note a) = (tr, Return s) ->
        a_side a = side ->
        PyFloat.truthy (a_confidence a) = false
          \/ PyFloat.geb (a_confidence a) PyFloat.sixty = true ->
        (fst (sentiment_gate side s) = false ->
         webhook E {| get_json := Some (PDict d) |}
         = (tr ++ [log_line E a s],
            Return (skipped_response ("Blocked by sentiment " +:+ format_2f s))))
        /\ (fst (sentiment_gate side s) = true ->
            forall tr' reason,
              webhook E {| get_json := Some (PDict d) |}
              <> (tr', Return (skipped_response reason)))).
Proof.
  split; [apply sentiment_gate_true|].
  split; [intros H; now rewrite (sentiment_gate_false _ _ H)|].
  split; [reflexivity|]. split; [reflexivity|].
  split.
  { intros Hb Hs. destruct (fst (sentiment_gate side s)) eqn:Eg; [|reflexivity].
    apply sentiment_gate_true in Eg. destruct Eg as [[Eg _]|[Eg _]]; contradiction. }
  split; [exact (sentiment_gate_true side s)|].
  do 4 (split; [reflexivity|]).
  intros d a tr Ha Hx Hs Hside Hoff. subst side.
  destruct (gate_one_decides d a tr s Ha Hx Hs Hoff) as [Hblock Hpass].
  split; [|exact Hpass].
  intros Hg. rewrite (Hblock Hg). now rewrite (sentiment_gate_false _ _ Hg).
Qed.

(** C2. At the confidence gate, the threshold being the float 60.0: a
    nonzero confidence strictly below 60 forces the decision to
    not-eligible whatever Gate 1 said and appends the low-confidence note to
    the reason; a confidence of zero, which is also what an absent field
    converts to, leaves the Gate 1 outcome as it is; and so does a
    confidence of 60 or more.  In the handler, for a scored request: with a
    nonzero confidence below 60 the answer is "skipped" with Gate 1's reason
    followed by the note; with a confidence of zero or of 60 or more the
    answer is "skipped" with Gate 1's reason alone when Gate 1 blocked, and
    is not "skipped" when Gate 1 passed. *)
Theorem confidence_gate_cases (c : float) (g1 : bool * string) :
  (PyFloat.truthy c = true -> PyFloat.ltb c PyFloat.sixty = true ->
     confidence_gate E c g1
     = (false, snd g1 +:+ " | low TV confidence " +:+ py_repr E (PFloat c) +:+ "%"))
  /\ (PyFloat.truthy c = false -> confidence_gate E c g1 = g1)
  /\ (forall d : gmap string pyval, d !! "confidence" = None ->
        exists z, (x ← py_get (PDict d) "confidence" (PInt 0); py_float E x)
                  = Return z /\ PyFloat.truthy z = false)
  /\ (PyFloat.geb c PyFloat.sixty = true -> confidence_gate E c g1 = g1)
  /\ PyFloat.sixty = S754_finite false 8444249301319680 (-47)
  /\ PyFloat.of_Z 60 = Some PyFloat.sixty
  /\ confidence_gate E (S754_finite false 8303511812964352 (-47)) (true, "ok")
     = (false, "ok" +:+ " | low TV confidence "
               +:+ py_repr E (PFloat (S754_finite false 8303511812964352 (-47)))
               +:+ "%")
  /\ confidence_gate E (S754_finite false 8444249301319680 (-47)) (true, "ok")
     = (true, "ok")
  /\ (forall d a tr s,
        authorized E d = true ->
        extract E d = Return a ->
        sentiment_score E (a_note a) = (tr, Return s) ->
        a_confidence a = c ->
        (d !! "confidence" = None -> PyFloat.truthy c = false)
        /\ (PyFloat.truthy c = true -> PyFloat.ltb c PyFloat.sixty = true ->
            webhook E {| get_json := Some (PDict d) |}
            = (tr ++ [log_line E a s],
               Return (skipped_response
                         (snd (sentiment_gate (a_side a) s)
                          +:+ " | low TV confidence "
                          +:+ py_repr E (PFloat c) +:+ "%"))))
        /\ (PyFloat.truthy c = false \/ PyFloat.geb c PyFloat.sixty = true ->
            (fst (sentiment_gate (a_side a) s) = false ->
             webhook E {| get_json := Some (PDict d) |}
             = (tr ++ [log_line E a s],
                Return (skipped_response (snd (sentiment_gate (a_side a) s)))))
            /\ (fst (sentiment_gate (a_side a) s) = true ->
                forall tr' reason,
                  webhook E {| get_json := Some (PDict d) |}
                  <> (tr', Return (skipped_response reason))))).
Proof.
  split; [|split; [|split; [|split]]].
  - unfold confidence_gate. intros -> ->. reflexivity.
  - unfold confidence_gate. intros ->. reflexivity.
  - intros d Hd. exists PyFloat.zero. simpl. rewrite Hd. split; reflexivity.
  - intros H. apply confidence_gate_keeps. now right.
  - do 4 (split; [reflexivity|]).
    intros d a tr s Ha Hx Hs Hc. subst c. split; [|split].
    + intros Hd. destruct (extract_inv E d a Hx) as (_ & _ & _ & _ & Hf & _).
      rewrite Hd in Hf. cbn in Hf. now injection Hf as <-.
    + intros Ht Hlt.
      rewrite webhook_authorized, Hx by exact Ha.
      rewrite (after_extract_scored E a tr s Hs).
      assert (Hd : decision E a s
                   = (false, snd (sentiment_gate (a_side a) s)
                             +:+ " | low TV confidence "
                             +:+ py_repr E (PFloat (a_confidence a)) +:+ "%"))
        by (unfold decision, confidence_gate; now rewrite Ht, Hlt).
      now rewrite Hd.
    + intros Hoff. exact (gate_one_decides d a tr s Ha Hx Hs Hoff).
Qed.

End GatesInHandler.

(* ===================================================================== *)
(** ** Instances of the further properties *)
(* ===================================================================== *)

Lemma sentiment_gate_eligible_iff_witness :
  let note := "disappointing guidance, layoffs expected" in
  fst (sentiment_gate "buy" (S754_finite false 7656119366529843 (-53))) = true
  /\ (fst (sentiment_gate "hold" Doubles.f0_9) = false
      /\ snd (sentiment_gate "hold" Doubles.f0_9) = "Blocked by sentiment 0.90")
  /\ webhook (Doubles.env Doubles.cfg_live "negative" Doubles.f0_7)
       (MoreRuns.buy_request note (PInt 75))
     = ([EClassify note]
        ++ [log_line (Doubles.env Doubles.cfg_live "negative" Doubles.f0_7)
              (MoreRuns.taken_apart note Doubles.f75) (PyFloat.neg Doubles.f0_7)],
        Return (skipped_response "Blocked by sentiment -0.70"))
  /\ webhook (Doubles.env Doubles.cfg_dry "positive" Doubles.f0_85)
       (MoreRuns.buy_request "strong earnings beat" (PInt 75))
     <> ([EClassify "strong earnings beat"],
         Return (skipped_response "BUY allowed (sentiment 0.85)")).
Proof.
  cbv zeta. split; [|split; [|split]].
  - destruct (sentiment_gate_eligible_iff
                (Doubles.env Doubles.cfg_dry "positive" Doubles.f0_85)
                "buy" (S754_finite false 7656119366529843 (-53)))
      as (_ & _ & _ & _ & _ & Hiff & _).
    apply Hiff. left. split; reflexivity.
  - destruct (sentiment_gate_eligible_iff
                (Doubles.env Doubles.cfg_dry "positive" Doubles.f0_85)
                "hold" Doubles.f0_9)
      as (_ & Hreason & _ & _ & Hside & _).
    assert (H : fst (sentiment_gate "hold" Doubles.f0_9) = false)
      by (apply Hside; discriminate).
    split; [exact H | exact (Hreason H)].
  - destruct (sentiment_gate_eligible_iff
                (Doubles.env Doubles.cfg_live "negative" Doubles.f0_7)
                "buy" (PyFloat.neg Doubles.f0_7))
      as (_ & _ & _ & _ & _ & _ & _ & _ & _ & _ & H).
    destruct (H (Doubles.alert_buy "disappointing guidance, layoffs expected" (PInt 75))
                (MoreRuns.taken_apart "disappointing guidance, layoffs expected" Doubles.f75)
                [EClassify "disappointing guidance, layoffs expected"]
                eq_refl eq_refl eq_refl eq_refl (or_intror eq_refl))
      as (Hblock & _).
    apply Hblock. reflexivity.
  - destruct (sentiment_gate_eligible_iff
                (Doubles.env Doubles.cfg_dry "positive" Doubles.f0_85)
                "buy" Doubles.f0_85)
      as (_ & _ & _ & _ & _ & _ & _ & _ & _ & _ & H).
    destruct (H (Doubles.alert_buy "strong earnings beat" (PInt 75))
                (MoreRuns.taken_apart "strong earnings beat" Doubles.f75)
                [EClassify "strong earnings beat"]
                eq_refl eq_refl eq_refl eq_refl (or_intror eq_refl))
      as (_ & Hpass).
    apply Hpass. reflexivity.
Defined.

Lemma confidence_gate_cases_witness :
  let E := Doubles.env Doubles.cfg_dry "positive" Doubles.f0_85 in
  let note := "strong earnings beat" in
  webhook E (MoreRuns.buy_request note (PInt 59))
  = ([EClassify note] ++ [log_line E (MoreRuns.taken_apart note Doubles.f59) Doubles.f0_85],
     Return (skipped_response
               ("BUY allowed (sentiment 0.85)" +:+ " | low TV confidence "
                +:+ "<repr>" +:+ "%")))
  /\ webhook E (MoreRuns.buy_request note (PInt 60))
     <> ([EClassify note], Return (skipped_response "BUY allowed (sentiment 0.85)"))
  /\ confidence_gate E (S754_zero true) (true, "ok") = (true, "ok")
  /\ confidence_gate E Doubles.f75 (true, "ok") = (true, "ok").
Proof.
  cbv zeta. split; [|split; [|split]].
  - destruct (confidence_gate_cases (Doubles.env Doubles.cfg_dry "positive" Doubles.f0_85)
                Doubles.f59 (true, "ok"))
      as (_ & _ & _ & _ & _ & _ & _ & _ & H).
    destruct (H (Doubles.alert_buy "strong earnings beat" (PInt 59))
                (MoreRuns.taken_apart "strong earnings beat" Doubles.f59)
                [EClassify "strong earnings beat"] Doubles.f0_85
                eq_refl eq_refl eq_refl eq_refl)
      as (_ & Hlow & _).
    apply Hlow; reflexivity.
  - destruct (confidence_gate_cases (Doubles.env Doubles.cfg_dry "positive" Doubles.f0_85)
                PyFloat.sixty (true, "ok"))
      as (_ & _ & _ & _ & _ & _ & _ & _ & H).
    destruct (H (Doubles.alert_buy "strong earnings beat" (PInt 60))
                (MoreRuns.taken_apart "strong earnings beat" PyFloat.sixty)
                [EClassify "strong earnings beat"] Doubles.f0_85
                eq_refl eq_refl eq_refl eq_refl)
      as (_ & _ & Hkeep).
    destruct (Hkeep (or_intror eq_refl)) as (_ & Hpass).
    apply Hpass. reflexivity.
  - destruct (confidence_gate_cases (Doubles.env Doubles.cfg_dry "positive" Doubles.f0_85)
                (S754_zero true) (true, "ok")) as (_ & H & _).
    apply H; reflexivity.
  - destruct (confidence_gate_cases (Doubles.env Doubles.cfg_dry "positive" Doubles.f0_85)
                Doubles.f75 (true, "ok")) as (_ & _ & _ & H & _).
    apply H; reflexivity.
Defined.

Lemma bot_id_not_integer_witness :
  let E := Doubles.env Faults.cfg_bad_bot "positive" Doubles.f0_85 in
  let a := MoreRuns.taken_apart "strong earnings beat" Doubles.f75 in
  webhook E (MoreRuns.buy_request "strong earnings beat" (PInt 75))
  = ([EClassify "strong earnings beat"] ++ [log_line E a Doubles.f0_85],
     Raise ValueError).
Proof.
  cbv zeta.
  destruct (bot_id_not_integer (Doubles.env Faults.cfg_bad_bot "positive" Doubles.f0_85))
    as (_ & H).
  destruct (H eq_refl) as (_ & Hrun).
  apply Hrun; reflexivity.
Defined.

Lemma transport_failure_propagates_witness :
  let E := Faults.env_post_timeout Doubles.cfg_live "positive" Doubles.f0_85 in
  result (webhook E (MoreRuns.buy_request "strong earnings beat" (PInt 75)))
  = Raise (ExternalError "timeout").
Proof.
  cbv zeta.
  destruct (transport_failure_propagates
              (Faults.env_post_timeout Doubles.cfg_live "positive" Doubles.f0_85))
    as (_ & H).
  destruct (H (MoreRuns.buy_request "strong earnings beat" (PInt 75))
              (MoreRuns.the_post
                 (Faults.env_post_timeout Doubles.cfg_live "positive" Doubles.f0_85))
              (ExternalError "timeout")) as (Hres & _).
  - vm_compute. right. right. left. reflexivity.
  - reflexivity.
  - exact Hres.
Defined.

Lemma posted_request_shape_witness :
  let E := Doubles.env Doubles.cfg_live "positive" Doubles.f0_85 in
  let rq := deal_request E 12345 (PStr "BINANCE:BTCUSDT") (Doubles.spaces 300) in
  rq_timeout rq = 20
  /\ rq_headers rq !! "Signature" = Some "<hmac>"
  /\ exists m, rq_json rq = PDict {[ "bot_id" := PInt 12345;
                                     "pair" := PStr "BINANCE:BTCUSDT";
                                     "message" := PStr m ]}
               /\ (String.length m <= 240)%nat.
Proof.
  cbv zeta.
  destruct (posted_request_shape (Doubles.env Doubles.cfg_live "positive" Doubles.f0_85)
              "12345" (PStr "BINANCE:BTCUSDT") (Doubles.spaces 300)
              (deal_request (Doubles.env Doubles.cfg_live "positive" Doubles.f0_85)
                 12345 (PStr "BINANCE:BTCUSDT") (Doubles.spaces 300)))
    as (_ & Hh & _ & Ht & n & m & Hn & Hj & _ & Hlen & _).
  - vm_compute. left. reflexivity.
  - split; [exact Ht|]. split; [now rewrite Hh|].
    exists m. split; [|exact Hlen].
    injection Hn as <-. exact Hj.
Defined.

Lemma webhook_responses_witness :
  let E := Doubles.env Doubles.cfg_live "negative" Doubles.f0_7 in
  let request := MoreRuns.buy_request "disappointing guidance, layoffs expected" (PInt 75) in
  webhook E {| get_json := None |}
  = ([], Return {| body := jsonify {[ "ok" := PBool false;
                                      "error" := PStr "invalid JSON" ]};
                   status := 400 |})
  /\ webhook E {| get_json := Some (PDict {[ "token" := PStr "guess";
                                             "symbol" := PStr "BTCUSDT" ]}) |}
     = ([], Return {| body := jsonify {[ "ok" := PBool false;
                                         "error" := PStr "bad token" ]};
                      status := 401 |})
  /\ exists tr r,
       webhook E request = (tr, Return r)
       /\ ((status r = 400 /\ get_json request = None
            /\ r = invalid_json_response /\ tr = [])
           \/ (status r = 401 /\ r = bad_token_response /\ tr = []
               /\ exists d, get_json request = Some (PDict d) /\ authorized E d = false)
           \/ (status r = 200 /\ (exists reason, r = skipped_response reason)
               /\ no_network (webhook E request))
           \/ (status r = 500 /\ r = not_configured_response /\ configured E = false
               /\ no_network (webhook E request))
           \/ (status r = 200 /\ (exists resp, r = deal_started_response resp)
               /\ configured E = true)).
Proof.
  cbv zeta. split; [|split].
  - destruct (webhook_responses (Doubles.env Doubles.cfg_live "negative" Doubles.f0_7)
                {| get_json := None |}) as (H & _).
    apply H. reflexivity.
  - destruct (webhook_responses (Doubles.env Doubles.cfg_live "negative" Doubles.f0_7)
                {| get_json := Some (PDict {[ "token" := PStr "guess";
                                              "symbol" := PStr "BTCUSDT" ]}) |})
      as (_ & H & _).
    apply (H {[ "token" := PStr "guess"; "symbol" := PStr "BTCUSDT" ]});
      reflexivity.
  - exists [EClassify "disappointing guidance, layoffs expected";
            log_line (Doubles.env Doubles.cfg_live "negative" Doubles.f0_7)
              (MoreRuns.taken_apart "disappointing guidance, layoffs expected" Doubles.f75)
              (PyFloat.neg Doubles.f0_7)],
           (skipped_response "Blocked by sentiment -0.70").
    assert (Hrun : webhook (Doubles.env Doubles.cfg_live "negative" Doubles.f0_7)
                     (MoreRuns.buy_request "disappointing guidance, layoffs expected" (PInt 75))
                   = ([EClassify "disappointing guidance, layoffs expected";
                       log_line (Doubles.env Doubles.cfg_live "negative" Doubles.f0_7)
                         (MoreRuns.taken_apart "disappointing guidance, layoffs expected"
                            Doubles.f75)
                         (PyFloat.neg Doubles.f0_7)],
                      Return (skipped_response "Blocked by sentiment -0.70")))
      by (vm_compute; reflexivity).
    split; [exact Hrun|].
    destruct (webhook_responses (Doubles.env Doubles.cfg_live "negative" Doubles.f0_7)
                (MoreRuns.buy_request "disappointing guidance, layoffs expected" (PInt 75)))
      as (_ & _ & H).
    exact (H _ _ Hrun).
Defined.

Lemma webhook_payload_not_object_witness :
  webhook (Doubles.env Doubles.cfg_live "positive" Doubles.f0_85)
    {| get_json := Some (PList [PStr "BTCUSDT"]) |}
  = ([], Raise AttributeError).
Proof.
  apply (webhook_payload_not_object _ _ (PList [PStr "BTCUSDT"]));
    [reflexivity | discriminate].
Defined.

Lemma missing_credentials_never_dispatch_witness :
  let E := Doubles.env Faults.cfg_no_bot "positive" Doubles.f0_85 in
  no_network (webhook E (MoreRuns.buy_request "strong earnings beat" (PInt 75)))
  /\ webhook E (MoreRuns.buy_request "strong earnings beat" (PInt 75))
     = ([EClassify "strong earnings beat"]
        ++ [log_line E (MoreRuns.taken_apart "strong earnings beat" Doubles.f75)
              Doubles.f0_85],
        Return not_configured_response).
Proof.
  cbv zeta.
  destruct (missing_credentials_never_dispatch
              (Doubles.env Faults.cfg_no_bot "positive" Doubles.f0_85))
    as (Hnever & Hrun); [right; right; reflexivity|].
  split.
  - apply Hnever.
  - apply Hrun; reflexivity.
Defined.

Lemma dry_run_never_posts_witness :
  no_network (webhook (Doubles.env Doubles.cfg_dry "positive" Doubles.f0_85)
                (MoreRuns.buy_request "strong earnings beat" (PInt 75))).
Proof.
  apply (dry_run_never_posts (Doubles.env Doubles.cfg_dry "positive" Doubles.f0_85)).
  reflexivity.
Defined.

Lemma classifier_called_after_checks_witness :
  let E := Doubles.env Doubles.cfg_live "positive" Doubles.f0_85 in
  exists d a t,
    get_json (MoreRuns.buy_request "strong earnings beat" (PInt 75)) = Some (PDict d)
    /\ authorized E d = true
    /\ extract E d = Return a
    /\ a_note a = PStr t
    /\ all_space t = false
    /\ "strong earnings beat" = PyStr.slice_to 500 t.
Proof.
  cbv zeta.
  apply (classifier_called_after_checks
           (Doubles.env Doubles.cfg_live "positive" Doubles.f0_85)).
  vm_compute. left. reflexivity.
Defined.

Lemma posted_pair_witness :
  let E := Doubles.env Doubles.cfg_live "positive" Doubles.f0_85 in
  let d := <["exchange" := PStr "kraken"]>
             (Doubles.alert_buy "strong earnings beat" (PInt 75)) in
  exists body,
    rq_json (deal_request E 12345 (PStr "KRAKEN:BTCUSDT")
               "TV+FinBERT: buy (BUY allowed (sentiment 0.85))") = PDict body
    /\ body !! "pair" = Some (PStr "KRAKEN:BTCUSDT").
Proof.
  cbv zeta.
  destruct (posted_pair (Doubles.env Doubles.cfg_live "positive" Doubles.f0_85)
              (<["exchange" := PStr "kraken"]>
                 (Doubles.alert_buy "strong earnings beat" (PInt 75)))
              "BTCUSDT"
              (deal_request (Doubles.env Doubles.cfg_live "positive" Doubles.f0_85)
                 12345 (PStr "KRAKEN:BTCUSDT")
                 "TV+FinBERT: buy (BUY allowed (sentiment 0.85))"))
    as (exchange & body & Hwhich & Hbody & Hpair).
  - reflexivity.
  - vm_compute. right. right. left. reflexivity.
  - exists body. split; [exact Hbody|].
    destruct Hwhich as [Hwhich | [Hwhich _]]; [|discriminate Hwhich].
    assert (exchange = "kraken") as -> by (vm_compute in Hwhich; congruence).
    exact Hpair.
Defined.

Lemma side_and_exchange_ignore_case_witness :
  let E := Doubles.env Doubles.cfg_live "positive" Doubles.f0_85 in
  let d := Doubles.alert_buy "strong earnings beat" (PInt 75) in
  webhook E {| get_json := Some (PDict (<["side" := PStr "BUY"]> d)) |}
  = webhook E {| get_json := Some (PDict (<["side" := PStr "buy"]> d)) |}.
Proof.
  cbv zeta.
  apply (side_and_exchange_ignore_case
           (Doubles.env Doubles.cfg_live "positive" Doubles.f0_85)
           (Doubles.alert_buy "strong earnings beat" (PInt 75)) "BUY" "buy").
  reflexivity.
Defined.

Lemma blank_note_is_skipped_witness :
  let E := Doubles.env Doubles.cfg_live "positive" Doubles.f0_85 in
  exists reason,
    webhook E (MoreRuns.buy_request "   " (PInt 75))
    = ([log_line E (MoreRuns.taken_apart "   " Doubles.f75) PyFloat.zero],
       Return (skipped_response reason))
    /\ String.prefix "Blocked by sentiment 0.00" reason = true.
Proof.
  cbv zeta.
  apply (blank_note_is_skipped (Doubles.env Doubles.cfg_live "positive" Doubles.f0_85)
           (Doubles.alert_buy "   " (PInt 75))).
  - reflexivity.
  - reflexivity.
  - right. exists "   ". split; reflexivity.
Defined.

Lemma low_confidence_is_skipped_witness :
  let E := Doubles.env Doubles.cfg_live "positive" Doubles.f0_85 in
  webhook E (MoreRuns.buy_request "strong earnings beat" (PInt 59))
  = ([EClassify "strong earnings beat"]
     ++ [log_line E (MoreRuns.taken_apart "strong earnings beat" Doubles.f59)
           Doubles.f0_85],
     Return (skipped_response
               ("BUY allowed (sentiment 0.85)" +:+ " | low TV confidence "
                +:+ "<repr>" +:+ "%"))).
Proof.
  cbv zeta.
  apply (low_confidence_is_skipped
           (Doubles.env Doubles.cfg_live "positive" Doubles.f0_85)
           (Doubles.alert_buy "strong earnings beat" (PInt 59))
           (MoreRuns.taken_apart "strong earnings beat" Doubles.f59)
           [EClassify "strong earnings beat"] Doubles.f0_85); reflexivity.
Defined.

Lemma eligible_request_is_dispatched_witness :
  let E := Doubles.env Doubles.cfg_live "positive" Doubles.f0_85 in
  let a := MoreRuns.taken_apart "strong earnings beat" Doubles.f75 in
  webhook E (MoreRuns.buy_request "strong earnings beat" (PInt 75))
  = ([EClassify "strong earnings beat"]
     ++ [log_line E a Doubles.f0_85;
         EPost (deal_request E 12345 (pair_of E a) (deal_message E a Doubles.f0_85));
         EPrint ("3Commas response: " +:+ py_str E (response_data Doubles.api_down))],
     Return (deal_started_response (response_data Doubles.api_down))).
Proof.
  cbv zeta.
  apply (eligible_request_is_dispatched
           (Doubles.env Doubles.cfg_live "positive" Doubles.f0_85)
           (Doubles.alert_buy "strong earnings beat" (PInt 75))
           (MoreRuns.taken_apart "strong earnings beat" Doubles.f75)
           [EClassify "strong earnings beat"] Doubles.f0_85 12345 Doubles.api_down);
    try reflexivity; try discriminate.
  right. reflexivity.
Defined.

Lemma load_config_reads_environment_witness :
  DRY_RUN (load_config Faults.environ_no_bot) = true
  /\ no_network
       (webhook (Doubles.env (load_config Faults.environ_no_bot) "positive" Doubles.f0_85)
          (MoreRuns.buy_request "strong earnings beat" (PInt 75))).
Proof.
  destruct (load_config_reads_environment Faults.environ_no_bot) as (Hdry & _ & Hpost).
  split.
  - apply Hdry. exists "TRUE". split; reflexivity.
  - apply Hpost; [reflexivity|]. right. right. reflexivity.
Defined.
